(** * The vSphere driver and the Container Optimized OS provisioner

    A shallow embedding of [drivers/vmwarevsphere/vsphere.go] (the
    lifecycle methods [GetState], [GetIP], [PreCreateCheck], [Start],
    [Stop], [Restart], [Kill], [Remove]) and of the Container Optimized
    OS provisioner's [GenerateDockerOptions].

    The vSphere control plane is outside the program.  It is modelled
    as an oracle that answers every call from the history of the run,
    so a statement over all oracles covers every behaviour the backend
    may show.  Driver methods are functions in a state monad whose
    state holds the [Driver] struct and the log of the run.  Calls
    of the logger and the creation of contexts have no part in what
    the methods return or request and are left out. *)

From Stdlib Require Import String Ascii List ZArith Bool Lia Permutation RelationClasses.
Import ListNotations.
Open Scope string_scope.
Open Scope list_scope.

(** ** libmachine/state *)

Module state.

(** Modelled from the spec: the [State] enumeration of package
    [libmachine/state], whose declaration is not among the sources;
    the states are those of the data model (section 3). *)
Inductive State : Set :=
| None | Starting | Running | Stopped | Stopping
| Saved | Paused | Error | Timeout.

Definition eqb (a b : State) : bool :=
  match a, b with
  | None, None | Starting, Starting | Running, Running
  | Stopped, Stopped | Stopping, Stopping | Saved, Saved
  | Paused, Paused | Error, Error | Timeout, Timeout => true
  | _, _ => false
  end.

End state.

(** ** Go error values *)

(** What [types.IsFileNotFound] tells apart in an error a govmomi call
    returns. *)
Inductive FaultKind : Set := FileNotFound | OtherFault.

Inductive error : Set :=
| ErrHostIsNotRunning                (* drivers.ErrHostIsNotRunning *)
| ErrNoIP                            (* "No IP despite waiting for one - check DHCP status" *)
| ErrCantStopVM (cause : error)      (* fmt.Errorf("can't stop VM: %s", err) *)
| ErrFolderNotFound (folder : string)(* fmt.Errorf("failed to find VM Folder '%s'", d.Folder) *)
| ErrUpgradeUnsupported              (* "upgrade is not supported for vsphere driver at this moment" *)
| Fault (kind : FaultKind) (msg : string). (* an error returned by the backend client *)

Definition IsFileNotFound (err : error) : bool :=
  match err with
  | Fault FileNotFound _ => true
  | _ => false
  end.

(** A Go function result [(v, err)], or a run-time panic. *)
Inductive Res (A : Type) : Type :=
| Ret (a : A)
| Panic (msg : string).
Arguments Ret {A} a.
Arguments Panic {A} msg.

(** ** The part of package [net] that [GetIP] uses *)

Module net.

(** [ParseIP] yields a nil [IP] for text that is no address, and
    [To4] of a nil [IP] is nil; [To4_notnil ip] is [ip.To4() != nil]. *)
Record Pkg : Type := {
  IP : Type;
  ParseIP : string -> IP;
  To4_notnil : IP -> bool;
  IsGlobalUnicast : IP -> bool;
  Equal : IP -> IP -> bool
}.

End net.

(** ** The driver struct *)

Definition dockerBridgeIP : string := "172.17.0.1".
Definition isoFilename : string := "boot2docker.iso".
Definition B2DUser : string := "docker".
Definition B2DPass : string := "tcuser".
Definition defaultSSHUser : string := B2DUser.
Definition defaultSSHPass : string := B2DPass.
Definition defaultCpus : Z := 2.
Definition defaultMemory : Z := 2048.
Definition defaultDiskSize : Z := 20480.
Definition defaultSDKPort : Z := 443.

(** The fields of the embedded [*drivers.BaseDriver] that the driver
    reads or writes. *)
Record BaseDriver : Set := {
  IPAddress : string;
  MachineName : string;
  SSHUser : string;
  SSHPort : Z;
  StorePath : string
}.

Record Driver : Set := {
  Base : BaseDriver;
  Memory : Z;
  DiskSize : Z;
  CPU : Z;
  ISO : string;
  Boot2DockerURL : string;
  CPUS : Z;
  IP : string;
  Port : Z;
  Username : string;
  Password : string;
  Network : string;
  Networks : list string;
  Datastore : string;
  Datacenter : string;
  Folder : string;
  Pool : string;
  HostSystem : string;
  CfgParams : list string;
  CloudInit : string;
  SSHPassword : string
}.

Definition NewDriver (hostName storePath : string) : Driver :=
  {| Base := {| IPAddress := ""; MachineName := hostName;
                SSHUser := defaultSSHUser; SSHPort := 0;
                StorePath := storePath |};
     Memory := defaultMemory; DiskSize := defaultDiskSize; CPU := 0;
     ISO := ""; Boot2DockerURL := ""; CPUS := defaultCpus;
     IP := ""; Port := defaultSDKPort; Username := ""; Password := "";
     Network := ""; Networks := []; Datastore := ""; Datacenter := "";
     Folder := ""; Pool := ""; HostSystem := ""; CfgParams := [];
     CloudInit := ""; SSHPassword := defaultSSHPass |}.

(** [d.IPAddress = ip] *)
Definition set_IPAddress (ip : string) (d : Driver) : Driver :=
  {| Base := {| IPAddress := ip; MachineName := MachineName (Base d);
                SSHUser := SSHUser (Base d); SSHPort := SSHPort (Base d);
                StorePath := StorePath (Base d) |};
     Memory := Memory d; DiskSize := DiskSize d; CPU := CPU d;
     ISO := ISO d; Boot2DockerURL := Boot2DockerURL d; CPUS := CPUS d;
     IP := IP d; Port := Port d; Username := Username d;
     Password := Password d; Network := Network d;
     Networks := Networks d; Datastore := Datastore d;
     Datacenter := Datacenter d; Folder := Folder d; Pool := Pool d;
     HostSystem := HostSystem d; CfgParams := CfgParams d;
     CloudInit := CloudInit d; SSHPassword := SSHPassword d |}.

(** [d.Networks = l] *)
Definition set_Networks (l : list string) (d : Driver) : Driver :=
  {| Base := Base d;
     Memory := Memory d; DiskSize := DiskSize d; CPU := CPU d;
     ISO := ISO d; Boot2DockerURL := Boot2DockerURL d; CPUS := CPUS d;
     IP := IP d; Port := Port d; Username := Username d;
     Password := Password d; Network := Network d;
     Networks := l; Datastore := Datastore d;
     Datacenter := Datacenter d; Folder := Folder d; Pool := Pool d;
     HostSystem := HostSystem d; CfgParams := CfgParams d;
     CloudInit := CloudInit d; SSHPassword := SSHPassword d |}.

(** [d.Network = n] *)
Definition set_Network (n : string) (d : Driver) : Driver :=
  {| Base := Base d;
     Memory := Memory d; DiskSize := DiskSize d; CPU := CPU d;
     ISO := ISO d; Boot2DockerURL := Boot2DockerURL d; CPUS := CPUS d;
     IP := IP d; Port := Port d; Username := Username d;
     Password := Password d; Network := n;
     Networks := Networks d; Datastore := Datastore d;
     Datacenter := Datacenter d; Folder := Folder d; Pool := Pool d;
     HostSystem := HostSystem d; CfgParams := CfgParams d;
     CloudInit := CloudInit d; SSHPassword := SSHPassword d |}.

(** [d.SSHUser = u] *)
Definition set_SSHUser (u : string) (d : Driver) : Driver :=
  {| Base := {| IPAddress := IPAddress (Base d);
                MachineName := MachineName (Base d);
                SSHUser := u; SSHPort := SSHPort (Base d);
                StorePath := StorePath (Base d) |};
     Memory := Memory d; DiskSize := DiskSize d; CPU := CPU d;
     ISO := ISO d; Boot2DockerURL := Boot2DockerURL d; CPUS := CPUS d;
     IP := IP d; Port := Port d; Username := Username d;
     Password := Password d; Network := Network d;
     Networks := Networks d; Datastore := Datastore d;
     Datacenter := Datacenter d; Folder := Folder d; Pool := Pool d;
     HostSystem := HostSystem d; CfgParams := CfgParams d;
     CloudInit := CloudInit d; SSHPassword := SSHPassword d |}.

(** ** Backend calls, the log of a run, the oracle *)

(** The backend calls whose only result the driver looks at is the
    error value.  [Login] stands for [vsphereLogin] ([url.Parse] and
    [govmomi.NewClient]); the [Wait...] calls wait for the task the call
    before them returned. *)
Inductive Call : Set :=
| Login (ip : string) (port : Z) (username password : string)
| DatacenterOrDefault (datacenter : string)
| VirtualMachine (vmPath : string)
| DatastoreOrDefault (datastore : string)
| NetworkOrDefault (netName : string)
| HostSystemOrDefault (hostSystem : string)
| ResourcePool (pool : string)
| HostResourcePool                 (* hs.ResourcePool(ctx) *)
| DefaultResourcePool
| ShutdownGuest
| PowerOn
| WaitPowerOn
| PowerOff
| WaitPowerOff
| DeleteDatastoreFile (path : string)
| WaitDelete
| Destroy
| WaitDestroy.

(** The driver methods whose invocations the log records. *)
Inductive Method : Set :=
| mGetState | mGetIP | mPreCreateCheck | mStart | mStop
| mRestart | mKill | mRemove.

(** The address map of [WaitForNetIP]: one entry per MAC address, in
    the order in which [range] visits the entries of the Go map in this
    run (Go leaves that order unspecified). *)
Definition MacIPs : Set := list (string * list string).

(** One entry of the log, with the backend's answer where there is one. *)
Inductive Event : Set :=
| Invoke (m : Method)
| Did (c : Call) (err : option error)
| DidLogout
| DidRetrieveOne (r : error + string)     (* mvm.Summary.Runtime.PowerState *)
| DidWaitForNetIP (r : error + MacIPs)
| DidFolders (r : error + string)         (* folders.VmFolder.InventoryPath *)
| DidFolder (path : string) (r : error + bool) (* is the folder non-nil *)
| Slept (seconds : Z).

Definition History : Set := list Event.

(** The backend: its answer to a call, given everything that happened
    before in the run. *)
Record Backend : Type := {
  on_call : History -> Call -> option error;
  on_RetrieveOne : History -> error + string;
  on_WaitForNetIP : History -> error + MacIPs;
  on_Folders : History -> error + string;
  on_Folder : History -> string -> error + bool
}.

(** ** The monad of driver methods *)

Record World : Set := {
  drv : Driver;         (* the receiver [d] *)
  log : History         (* oldest event first *)
}.

Definition M (A : Type) : Type := World -> Res A * World.

Definition ret {A} (a : A) : M A := fun w => (Ret a, w).

Definition bind {A B} (m : M A) (k : A -> M B) : M B :=
  fun w =>
    match m w with
    | (Ret a, w') => k a w'
    | (Panic msg, w') => (Panic msg, w')
    end.

Declare Scope go_scope.
Delimit Scope go_scope with go.
Notation "x <- m ;; k" := (bind m (fun x => k))
  (at level 100, m at next level, right associativity) : go_scope.
Notation "m ;;; k" := (bind m (fun _ => k))
  (at level 100, right associativity) : go_scope.
Open Scope go_scope.

Definition panic {A} (msg : string) : M A := fun w => (Panic msg, w).

Definition emit (e : Event) : M unit :=
  fun w => (Ret tt, {| drv := drv w; log := log w ++ [e] |}).

Definition enter (m : Method) : M unit := emit (Invoke m).

Definition getD : M Driver := fun w => (Ret (drv w), w).

Definition modD (f : Driver -> Driver) : M unit :=
  fun w => (Ret tt, {| drv := f (drv w); log := log w |}).

Section Driver.

Variable env : Backend.
Variable N : net.Pkg.

Definition call (c : Call) : M (option error) :=
  fun w => let r := on_call env (log w) c in
           (Ret r, {| drv := drv w; log := log w ++ [Did c r] |}).

Definition RetrieveOne : M (error + string) :=
  fun w => let r := on_RetrieveOne env (log w) in
           (Ret r, {| drv := drv w; log := log w ++ [DidRetrieveOne r] |}).

Definition WaitForNetIP : M (error + MacIPs) :=
  fun w => let r := on_WaitForNetIP env (log w) in
           (Ret r, {| drv := drv w; log := log w ++ [DidWaitForNetIP r] |}).

Definition Folders : M (error + string) :=
  fun w => let r := on_Folders env (log w) in
           (Ret r, {| drv := drv w; log := log w ++ [DidFolders r] |}).

Definition FindFolder (path : string) : M (error + bool) :=
  fun w => let r := on_Folder env (log w) path in
           (Ret r, {| drv := drv w; log := log w ++ [DidFolder path r] |}).

Definition Sleep (seconds : Z) : M unit := emit (Slept seconds).

(** [defer c.Logout(ctx)]: the logout runs when the body returns,
    also when it panics; its result is dropped. *)
Definition deferLogout {A} (body : M A) : M A :=
  fun w => let (r, w') := body w in
           (r, snd (emit DidLogout w')).

Definition vsphereLogin : M (option error) :=
  d <- getD ;;
  call (Login (IP d) (Port d) (Username d) (Password d)).

Definition fetchVM (vmname : string) : M (option error) :=
  d <- getD ;;
  err <- call (DatacenterOrDefault (Datacenter d)) ;;
  match err with
  | Some e => ret (Some e)
  | None =>
      let vmPath := if String.eqb (Folder d) "" then vmname
                    else (Folder d ++ "/" ++ vmname)%string in
      call (VirtualMachine vmPath)
  end.

(** [strings.Contains] *)
Definition Contains (s substr : string) : bool :=
  match String.index 0 substr s with
  | Some _ => true
  | None => false
  end.

Definition GetState_body : M (state.State * option error) :=
  err <- vsphereLogin ;;
  match err with
  | Some e => ret (state.None, Some e)
  | None =>
      deferLogout (
        d <- getD ;;
        err <- fetchVM (MachineName (Base d)) ;;
        match err with
        | Some e => ret (state.None, Some e)
        | None =>
            r <- RetrieveOne ;;
            match r with
            | inl _ => ret (state.None, None)
            | inr powerState =>
                if Contains powerState "poweredOn"
                then ret (state.Running, None)
                else if Contains powerState "poweredOff"
                then ret (state.Stopped, None)
                else ret (state.None, None)
            end
        end)
  end.

Definition GetState : M (state.State * option error) :=
  enter mGetState ;;; GetState_body.

(** *** GetIP *)

(** The condition of the inner loop of [GetIP]. *)
Definition qualifies (ip : string) : bool :=
  let netIP := net.ParseIP N ip in
  net.To4_notnil N netIP
  && net.IsGlobalUnicast N netIP
  && negb (net.Equal N netIP (net.ParseIP N dockerBridgeIP)).

(** The inner loop [for _, ip := range ips]: the first address that
    qualifies replaces [preferredIP] and ends the loop. *)
Fixpoint pickPreferred (preferredIP : string) (ips : list string) : string :=
  match ips with
  | [] => preferredIP
  | ip :: rest => if qualifies ip then ip else pickPreferred preferredIP rest
  end.

(** The guard [len(ips) >= 0]. *)
Definition lenGuard (ips : list string) : bool :=
  (Z.of_nat (length ips) >=? 0)%Z.

(** The outer loop [for _, ips := range configuredMacIPs] and the
    return that follows it. *)
Fixpoint selectIP (configuredMacIPs : MacIPs) : Res (string * option error) :=
  match configuredMacIPs with
  | [] => Ret ("", Some ErrNoIP)
  | (_, ips) :: rest =>
      if lenGuard ips then
        match nth_error ips 0 with      (* ips[0] *)
        | Some first => Ret (pickPreferred first ips, None)
        | None => Panic "index out of range [0] with length 0"
        end
      else selectIP rest
  end.

Definition lift {A} (r : Res A) : M A := fun w => (r, w).

Definition GetIP : M (string * option error) :=
  enter mGetIP ;;;
  st <- GetState ;;
  let (status, _) := st in
  if negb (state.eqb status state.Running)
  then ret ("", Some ErrHostIsNotRunning)
  else
    err <- vsphereLogin ;;
    match err with
    | Some e => ret ("", Some e)
    | None =>
        deferLogout (
          d <- getD ;;
          err <- fetchVM (MachineName (Base d)) ;;
          match err with
          | Some e => ret ("", Some e)
          | None =>
              r <- WaitForNetIP ;;
              match r with
              | inl e => ret ("", Some e)
              | inr configuredMacIPs => lift (selectIP configuredMacIPs)
              end
          end)
    end.

(** *** PreCreateCheck *)

(** [for _, netName := range d.Networks] *)
Fixpoint checkNetworks (networks : list string) : M (option error) :=
  match networks with
  | [] => ret None
  | netName :: rest =>
      err <- call (NetworkOrDefault netName) ;;
      match err with
      | Some e => ret (Some e)
      | None => checkNetworks rest
      end
  end.

(** The resource pool lookup that ends [PreCreateCheck]; [hs] tells
    whether the host system variable is non-nil. *)
Definition checkPool (hs : bool) : M (option error) :=
  d <- getD ;;
  if negb (String.eqb (Pool d) "") then call (ResourcePool (Pool d))
  else if hs then call HostResourcePool
  else call DefaultResourcePool.

(** [PreCreateCheck] from the host system on. *)
Definition checkHostAndPool : M (option error) :=
  d <- getD ;;
  if negb (String.eqb (HostSystem d) "") then
    err <- call (HostSystemOrDefault (HostSystem d)) ;;
    match err with
    | Some e => ret (Some e)
    | None => checkPool true
    end
  else checkPool false.

(** [PreCreateCheck] from the networks on: the default network, the
    loop over [d.Networks], the assignment of [d.Network], and the
    rest. *)
Definition checkNetworksAndRest : M (option error) :=
  d <- getD ;;
  (if (length (Networks d) =? 0)%nat
   then modD (set_Networks (Networks d ++ ["VM Network"]))
   else ret tt) ;;;
  d <- getD ;;
  err <- checkNetworks (Networks d) ;;
  match err with
  | Some e => ret (Some e)
  | None =>
      d <- getD ;;
      match nth_error (Networks d) 0 with     (* d.Networks[0] *)
      | None => panic "index out of range [0] with length 0"
      | Some n0 => modD (set_Network n0) ;;; checkHostAndPool
      end
  end.

(** [PreCreateCheck] from the datastore on, where the two branches of
    the test on [d.Folder] meet. *)
Definition checkDatastoreAndRest : M (option error) :=
  d <- getD ;;
  err <- call (DatastoreOrDefault (Datastore d)) ;;
  match err with
  | Some e => ret (Some e)
  | None => checkNetworksAndRest
  end.

Definition PreCreateCheck : M (option error) :=
  enter mPreCreateCheck ;;;
  err <- vsphereLogin ;;
  match err with
  | Some e => ret (Some e)
  | None =>
      deferLogout (
        d <- getD ;;
        err <- call (DatacenterOrDefault (Datacenter d)) ;;
        match err with
        | Some e => ret (Some e)
        | None =>
            if negb (String.eqb (Folder d) "") then
              fs <- Folders ;;
              match fs with
              | inl e => ret (Some e)
              | inr inventoryPath =>
                  f <- FindFolder (inventoryPath ++ "/" ++ Folder d)%string ;;
                  match f with
                  | inl e => ret (Some e)
                  | inr false => ret (Some (ErrFolderNotFound (Folder d)))
                  | inr true => checkDatastoreAndRest
                  end
              end
            else checkDatastoreAndRest
        end)
  end.

(** *** Start, Stop, Kill *)

Definition Start : M (option error) :=
  enter mStart ;;;
  st <- GetState ;;
  let (machineState, err) := st in
  match err with
  | Some e => ret (Some e)
  | None =>
      match machineState with
      | state.Running => ret None
      | state.Stopped =>
          err <- vsphereLogin ;;
          match err with
          | Some e => ret (Some e)
          | None =>
              deferLogout (
                d <- getD ;;
                err <- fetchVM (MachineName (Base d)) ;;
                match err with
                | Some e => ret (Some e)
                | None =>
                    err <- call PowerOn ;;
                    match err with
                    | Some e => ret (Some e)
                    | None =>
                        err <- call WaitPowerOn ;;
                        match err with
                        | Some e => ret (Some e)
                        | None =>
                            r <- GetIP ;;
                            let (ip, err) := r in
                            modD (set_IPAddress ip) ;;;
                            match err with
                            | Some e => ret (Some e)
                            | None => ret None
                            end
                        end
                    end
                end)
          end
      | _ => ret None
      end
  end.

Definition Stop : M (option error) :=
  enter mStop ;;;
  err <- vsphereLogin ;;
  match err with
  | Some e => ret (Some e)
  | None =>
      deferLogout (
        d <- getD ;;
        err <- fetchVM (MachineName (Base d)) ;;
        match err with
        | Some e => ret (Some e)
        | None =>
            err <- call ShutdownGuest ;;
            match err with
            | Some e => ret (Some e)
            | None => modD (set_IPAddress "") ;;; ret None
            end
        end)
  end.

Definition Kill : M (option error) :=
  enter mKill ;;;
  err <- vsphereLogin ;;
  match err with
  | Some e => ret (Some e)
  | None =>
      deferLogout (
        d <- getD ;;
        err <- fetchVM (MachineName (Base d)) ;;
        match err with
        | Some e => ret (Some e)
        | None =>
            err <- call PowerOff ;;
            match err with
            | Some e => ret (Some e)
            | None =>
                err <- call WaitPowerOff ;;
                match err with
                | Some e => ret (Some e)
                | None => modD (set_IPAddress "") ;;; ret None
                end
            end
        end)
  end.

(** *** Restart *)

(** How the polling loop of [Restart] ends: by [return err], or by
    leaving the loop ([break], or [i] beyond 60). *)
Inductive LoopExit : Set :=
| Returns (err : error)
| Leaves.

(** [for i := 1; i <= 60; i++ { ... }], by the number of iterations
    that remain. *)
Fixpoint Restart_loop (remaining : nat) : M LoopExit :=
  match remaining with
  | O => ret Leaves
  | S remaining' =>
      st <- GetState ;;
      let (machineState, err) := st in
      match err with
      | Some e => ret (Returns e)
      | None =>
          if state.eqb machineState state.Running
          then Sleep 2 ;;; Restart_loop remaining'
          else if state.eqb machineState state.Stopped
          then ret Leaves
          else Restart_loop remaining'
      end
  end.

Definition Restart : M (option error) :=
  enter mRestart ;;;
  err <- Stop ;;
  match err with
  | Some e => ret (Some e)
  | None =>
      x <- Restart_loop 60 ;;
      match x with
      | Returns e => ret (Some e)
      | Leaves =>
          st <- GetState ;;
          let (machineState, _) := st in
          if state.eqb machineState state.Running then
            err <- Kill ;;
            match err with
            | Some e => ret (Some (ErrCantStopVM e))
            | None => Start
            end
          else Start
      end
  end.

(** *** Upgrade *)

Definition Upgrade : M (option error) := ret (Some ErrUpgradeUnsupported).

(** *** Remove *)

(** The file that [Remove] deletes, relative to the datastore;
    [dss.Path] puts the datastore's name in front of it. *)
Definition isoPath (d : Driver) : string :=
  (MachineName (Base d) ++ "/" ++ isoFilename)%string.

(** [Remove] from the login on, where the two branches of the test on
    the machine state meet. *)
Definition Remove_afterStop : M (option error) :=
  err <- vsphereLogin ;;
  match err with
  | Some e => ret (Some e)
  | None =>
      deferLogout (
        d <- getD ;;
        err <- call (DatacenterOrDefault (Datacenter d)) ;;
        match err with
        | Some e => ret (Some e)
        | None =>
            err <- call (DatastoreOrDefault (Datastore d)) ;;
            match err with
            | Some e => ret (Some e)
            | None =>
                err <- call (DeleteDatastoreFile (isoPath d)) ;;
                match err with
                | Some e => ret (Some e)
                | None =>
                    err <- call WaitDelete ;;
                    if match err with
                       | Some e => IsFileNotFound e
                       | None => false
                       end
                    then ret None
                    else
                      err <- fetchVM (MachineName (Base d)) ;;
                      match err with
                      | Some e => ret (Some e)
                      | None =>
                          err <- call Destroy ;;
                          match err with
                          | Some e => ret (Some e)
                          | None =>
                              err <- call WaitDestroy ;;
                              match err with
                              | Some e => ret (Some e)
                              | None => ret None
                              end
                          end
                      end
                end
            end
        end)
  end.

Definition Remove : M (option error) :=
  enter mRemove ;;;
  st <- GetState ;;
  let (machineState, err) := st in
  match err with
  | Some e => ret (Some e)
  | None =>
      if state.eqb machineState state.Running then
        err <- Kill ;;
        match err with
        | Some e => ret (Some (ErrCantStopVM e))
        | None => Remove_afterStop
        end
      else Remove_afterStop
  end.

(** *** GetURL, GetSSHHostname, GetSSHUsername *)

(** [net.JoinHostPort]: a host with a colon in it is taken for a
    literal IPv6 address and put in brackets. *)
Definition JoinHostPort (host port : string) : string :=
  if Contains host ":"
  then ("[" ++ host ++ "]:" ++ port)%string
  else (host ++ ":" ++ port)%string.

Definition GetURL : M (string * option error) :=
  r <- GetIP ;;
  let (ip, err) := r in
  match err with
  | Some e => ret ("", Some e)
  | None =>
      if String.eqb ip "" then ret ("", None)
      else ret (("tcp://" ++ JoinHostPort ip "2376")%string, None)
  end.

Definition GetSSHHostname : M (string * option error) := GetIP.

Definition GetSSHUsername : M string :=
  d <- getD ;;
  (if String.eqb (SSHUser (Base d)) "" then modD (set_SSHUser "docker")
   else ret tt) ;;;
  d <- getD ;;
  ret (SSHUser (Base d)).

End Driver.

(** ** What a run adds to the log *)

(** The events of [w'] that are not yet in [w]. *)
Definition since (w w' : World) : History :=
  skipn (length (log w)) (log w').

(** The events a method logs when it runs from [w]. *)
Definition events_of {A} (m : M A) (w : World) : History :=
  since w (snd (m w)).

(** A power-on request to the backend. *)
Definition is_power_on (e : Event) : bool :=
  match e with
  | Did PowerOn _ | Did WaitPowerOn _ => true
  | _ => false
  end.

(** ** A reading of [net] for dotted-decimal text

    The functions of Go's package [net] that [GetIP] calls, for
    addresses written as four decimal fields; an [IP] is a list of
    bytes, nil when the text is no such address.  Text in the colon
    notation of IPv6 is outside this instance. *)

Module dotted.

Open Scope Z_scope.

Definition IP : Type := list Z.

Definition IPv4 (a b c d : Z) : IP :=
  [0; 0; 0; 0; 0; 0; 0; 0; 0; 0; 255; 255; a; b; c; d].

Definition IPv4bcast : IP := IPv4 255 255 255 255.
Definition IPv4zero : IP := IPv4 0 0 0 0.
Definition IPv6unspecified : IP := repeat 0 16.
Definition IPv6loopback : IP := repeat 0 15 ++ [1].

Definition is_digit (c : ascii) : bool :=
  ((48 <=? nat_of_ascii c) && (nat_of_ascii c <=? 57))%nat.

Fixpoint dtoi (s : string) (acc : Z) : option Z :=
  match s with
  | EmptyString => Some acc
  | String c s' =>
      if is_digit c
      then dtoi s' (acc * 10 + Z.of_nat (nat_of_ascii c - 48))
      else None
  end.

(** One decimal field: digits only, at most 255, no leading zero. *)
Definition field (s : string) : option Z :=
  match s with
  | EmptyString => None
  | String c s' =>
      if Ascii.eqb c "0" && negb (String.eqb s' "") then None
      else match dtoi s 0 with
           | Some v => if (v <=? 255) && (String.length s <=? 3)%nat
                       then Some v else None
           | None => None
           end
  end.

Fixpoint fields (s cur : string) : list string :=
  match s with
  | EmptyString => [cur]
  | String c s' =>
      if Ascii.eqb c "."
      then cur :: fields s' ""
      else fields s' (cur ++ String c "")%string
  end.

Definition ParseIP (s : string) : IP :=
  match map field (fields s "") with
  | [Some a; Some b; Some c; Some d] => IPv4 a b c d
  | _ => []
  end.

Definition bytes_eqb (x y : IP) : bool :=
  (length x =? length y)%nat && forallb (fun p => fst p =? snd p) (combine x y).

Definition To4 (ip : IP) : IP :=
  if (length ip =? 4)%nat then ip
  else if (length ip =? 16)%nat
          && bytes_eqb (firstn 10 ip) (repeat 0 10)
          && (nth 10 ip 0 =? 255) && (nth 11 ip 0 =? 255)
  then skipn 12 ip
  else [].

Definition notnil (ip : IP) : bool := negb (length ip =? 0)%nat.

Definition Equal (ip x : IP) : bool :=
  if (length ip =? length x)%nat then bytes_eqb ip x
  else if (length ip =? 4)%nat && (length x =? 16)%nat
  then bytes_eqb (firstn 12 x) (firstn 12 IPv4zero) && bytes_eqb ip (skipn 12 x)
  else if (length ip =? 16)%nat && (length x =? 4)%nat
  then bytes_eqb (firstn 12 ip) (firstn 12 IPv4zero) && bytes_eqb (skipn 12 ip) x
  else false.

Definition IsUnspecified (ip : IP) : bool :=
  Equal ip IPv4zero || Equal ip IPv6unspecified.

Definition IsLoopback (ip : IP) : bool :=
  if notnil (To4 ip) then nth 0 (To4 ip) 0 =? 127
  else Equal ip IPv6loopback.

Definition IsMulticast (ip : IP) : bool :=
  if notnil (To4 ip) then Z.land (nth 0 (To4 ip) 0) 240 =? 224
  else (length ip =? 16)%nat && (nth 0 ip 0 =? 255).

Definition IsLinkLocalUnicast (ip : IP) : bool :=
  if notnil (To4 ip)
  then (nth 0 (To4 ip) 0 =? 169) && (nth 1 (To4 ip) 0 =? 254)
  else (length ip =? 16)%nat && (nth 0 ip 0 =? 254)
       && (Z.land (nth 1 ip 0) 192 =? 128).

Definition IsGlobalUnicast (ip : IP) : bool :=
  ((length ip =? 4)%nat || (length ip =? 16)%nat)
  && negb (Equal ip IPv4bcast)
  && negb (IsUnspecified ip)
  && negb (IsLoopback ip)
  && negb (IsMulticast ip)
  && negb (IsLinkLocalUnicast ip).

Definition pkg : net.Pkg :=
  {| net.IP := IP;
     net.ParseIP := ParseIP;
     net.To4_notnil := fun ip => notnil (To4 ip);
     net.IsGlobalUnicast := IsGlobalUnicast;
     net.Equal := Equal |}.

End dotted.

(** ** Backends for the examples *)

(** A backend given by the failures of the plain calls, the reported
    power state and the addresses; it knows one inventory folder. *)
Definition scripted (fails : History -> Call -> option error)
    (power : History -> error + string) (ips : error + MacIPs) : Backend :=
  {| on_call := fails;
     on_RetrieveOne := power;
     on_WaitForNetIP := fun _ => ips;
     on_Folders := fun _ => inr "/dc/vm";
     on_Folder := fun _ _ => inr true |}.

Definition noFailure : History -> Call -> option error := fun _ _ => None.

Definition always (powerState : string) : History -> error + string :=
  fun _ => inr powerState.

(** The number of property retrievals in a history. *)
Definition retrievals (h : History) : nat :=
  length (filter (fun e => match e with DidRetrieveOne _ => true | _ => false end) h).

(** A fresh machine named "dev" and the empty log. *)
Definition dev : World := {| drv := NewDriver "dev" "/store"; log := [] |}.

(** The machine "dev" with a host system chosen, as
    [--vmwarevsphere-hostsystem] does. *)
Definition onHost (hostSystem : string) (d : Driver) : Driver :=
  {| Base := Base d;
     Memory := Memory d; DiskSize := DiskSize d; CPU := CPU d;
     ISO := ISO d; Boot2DockerURL := Boot2DockerURL d; CPUS := CPUS d;
     IP := IP d; Port := Port d; Username := Username d;
     Password := Password d; Network := Network d;
     Networks := Networks d; Datastore := Datastore d;
     Datacenter := Datacenter d; Folder := Folder d; Pool := Pool d;
     HostSystem := hostSystem; CfgParams := CfgParams d;
     CloudInit := CloudInit d; SSHPassword := SSHPassword d |}.

(** ** Runs of the polling loop *)

(** [n] state queries in a row, each without error and with a state
    that [goes_on] accepts, with the two-second sleep after each one
    that reports [Running]: the world after them, if the backend
    answers so. *)
Fixpoint polls (env : Backend) (goes_on : state.State -> bool) (n : nat)
    (w : World) : option World :=
  match n with
  | O => Some w
  | S n' =>
      match GetState env w with
      | (Ret (st, None), w1) =>
          if goes_on st
          then polls env goes_on n'
                 (if state.eqb st state.Running then snd (Sleep 2 w1) else w1)
          else None
      | _ => None
      end
  end.

Definition is_Running (st : state.State) : bool := state.eqb st state.Running.

(** The log entries that mark an invocation of [Kill] or of [Start]. *)
Definition is_kill_or_start (e : Event) : bool :=
  match e with
  | Invoke mKill | Invoke mStart => true
  | _ => false
  end.

(** The log entries that mark an invocation of [GetState]. *)
Definition is_poll (e : Event) : bool :=
  match e with
  | Invoke mGetState => true
  | _ => false
  end.

(** ** Relations between the world before and after a run *)

(** The log grew by events that all satisfy [Q]. *)
Definition logs (Q : Event -> Prop) (w w' : World) : Prop :=
  exists evs, log w' = log w ++ evs /\ Forall Q evs.

(** Every run of [m] relates its first world to its last by [R]. *)
Definition respects {A} (R : World -> World -> Prop) (m : M A) : Prop :=
  forall w, R w (snd (m w)).

(** Logging [e] is a step of [R]. *)
Definition step (R : World -> World -> Prop) (e : Event) : Prop :=
  forall w, R w {| drv := drv w; log := log w ++ [e] |}.

(** Writing the driver struct is a step of [R]. *)
Definition writes (R : World -> World -> Prop) (f : Driver -> Driver) : Prop :=
  forall w, R w {| drv := f (drv w); log := log w |}.

(** ** What PreCreateCheck may touch *)

(** The backend calls that only open or close the session or look
    something up. *)
Definition is_lookup (e : Event) : Prop :=
  match e with
  | Invoke _ => True
  | Did (Login _ _ _ _) _
  | Did (DatacenterOrDefault _) _
  | Did (DatastoreOrDefault _) _
  | Did (NetworkOrDefault _) _
  | Did (HostSystemOrDefault _) _
  | Did (ResourcePool _) _
  | Did HostResourcePool _
  | Did DefaultResourcePool _ => True
  | Did _ _ => False
  | DidLogout | DidFolders _ | DidFolder _ _ => True
  | DidRetrieveOne _ | DidWaitForNetIP _ | Slept _ => False
  end.

(** The error with which a check of [PreCreateCheck] fails, for the
    driver struct [d], if the event is such a failure. *)
Definition failure_of (d : Driver) (e : Event) : option error :=
  match e with
  | Did _ (Some err) => Some err
  | DidFolders (inl err) => Some err
  | DidFolder _ (inl err) => Some err
  | DidFolder _ (inr false) => Some (ErrFolderNotFound (Folder d))
  | _ => None
  end.

(** [d'] is [d] up to the fields [Networks] and [Network]. *)
Definition same_but_networks (d d' : Driver) : Prop :=
  d' = set_Network (Network d') (set_Networks (Networks d') d).

(** What a run of [PreCreateCheck] may do to the driver struct: put
    the default network into an empty [Networks], and set [Network]
    to the first element of [Networks]. *)
Definition defaults_networks (w w' : World) : Prop :=
  same_but_networks (drv w) (drv w') /\
  (Networks (drv w') = Networks (drv w) \/
   Networks (drv w) = [] /\ Networks (drv w') = ["VM Network"]) /\
  (Network (drv w') = Network (drv w) \/
   nth_error (Networks (drv w')) 0 = Some (Network (drv w'))).

(** The driver struct is the same. *)
Definition same_drv (w w' : World) : Prop := drv w' = drv w.

(** ** The provisioners and the daemon configuration *)

Module auth.

(** Modelled from the spec: [auth.Options], whose declaration is not
    among the sources; the certificate set of the data model, with
    the local paths and the paths on the host. *)
Record Options : Set := {
  CaCertPath : string;
  CaPrivateKeyPath : string;
  ServerCertPath : string;
  ServerKeyPath : string;
  ClientCertPath : string;
  ClientKeyPath : string;
  CaCertRemotePath : string;
  ServerCertRemotePath : string;
  ServerKeyRemotePath : string
}.

Definition zero : Options :=
  {| CaCertPath := ""; CaPrivateKeyPath := ""; ServerCertPath := "";
     ServerKeyPath := ""; ClientCertPath := ""; ClientKeyPath := "";
     CaCertRemotePath := ""; ServerCertRemotePath := "";
     ServerKeyRemotePath := "" |}.

End auth.

Module engine.

(** Modelled from the spec: [engine.Options], whose declaration is
    not among the sources; the storage driver that the tests read
    and the additional daemon flags. *)
Record Options : Set := {
  StorageDriver : string;
  ArbitraryFlags : list string
}.

Definition zero : Options := {| StorageDriver := ""; ArbitraryFlags := [] |}.

End engine.

Module EngineConfigContext.

(** [libmachine/provision/engine_config_context.go] *)
Record t : Set := {
  DockerPort : Z;
  AuthOptions : auth.Options;
  EngineOptions : engine.Options;
  DockerOptionsDir : string
}.

End EngineConfigContext.

Module provision.

(** The fields of [GenericProvisioner] that [NewCOSProvisioner] and
    [Provision] set; [Driver] is the vSphere driver, the one
    implementation of [drivers.Driver] among the sources. *)
Record GenericProvisioner : Set := {
  DockerOptionsDir : string;
  DaemonOptionsFile : string;
  OsReleaseID : string;
  Packages : list string;
  Driver_ : Driver;
  AuthOptions : auth.Options;
  EngineOptions : engine.Options
}.





Definition context (p : GenericProvisioner) (dockerPort : Z)
  : EngineConfigContext.t :=
  {| EngineConfigContext.DockerPort := dockerPort;
     EngineConfigContext.AuthOptions := AuthOptions p;
     EngineConfigContext.EngineOptions := EngineOptions p;
     EngineConfigContext.DockerOptionsDir := DockerOptionsDir p |}.











End provision.

(** ** Notions for the statements *)

(** The calls a successful [GetState] makes. *)
Definition GetState_calls (d : Driver) (r : error + string) : History :=
  [ Invoke mGetState;
    Did (Login (IP d) (Port d) (Username d) (Password d)) None;
    Did (DatacenterOrDefault (Datacenter d)) None;
    Did (VirtualMachine (if String.eqb (Folder d) "" then MachineName (Base d)
                         else (Folder d ++ "/" ++ MachineName (Base d))%string)) None;
    DidRetrieveOne r;
    DidLogout ].

(** The choice of address in the words of the specification: the first
    address of the list that qualifies, or else the first address of
    the list. *)
Definition firstQualifyingOrFirst (N : net.Pkg) (ips : list string) : option string :=
  match find (qualifies N) ips with
  | Some ip => Some ip
  | None => nth_error ips 0
  end.

(** The events that are no invocation of a method in [ms]. *)
Definition no_invoke_of (ms : list Method) (e : Event) : Prop :=
  match e with
  | Invoke m => ~ In m ms
  | _ => True
  end.

(** The log grew by [n] invocations of [GetState] and by no
    invocation of [Kill] or [Start]. *)
Definition adds_polls (n : nat) (w w' : World) : Prop :=
  exists evs,
    log w' = log w ++ evs /\
    filter is_kill_or_start evs = [] /\
    length (filter is_poll evs) = n.

(** ** Sessions, panics and budgets of a run *)

(** What an event does to the number of open sessions: a login that
    succeeds opens one, a logout closes one. *)
Definition session_delta (e : Event) : Z :=
  match e with
  | Did (Login _ _ _ _) None => 1
  | DidLogout => -1
  | _ => 0
  end.

Definition open_sessions (evs : History) : Z :=
  fold_right (fun e n => (session_delta e + n)%Z) 0%Z evs.

(** The run from [w] to [w'] closed every session it opened. *)
Definition balanced (w w' : World) : Prop :=
  exists evs, log w' = log w ++ evs /\ open_sessions evs = 0%Z.

(** The answer of the address wait whose first entry has an empty
    address list. *)
Definition empty_first_entry (e : Event) : Prop :=
  match e with
  | DidWaitForNetIP (inr ((_, []) :: _)) => True
  | _ => False
  end.

(** The log only grows in a run of [m], and a run that panics has
    logged an event that satisfies [cause]. *)
Definition panics_only_after {A} (cause : Event -> Prop) (m : M A) : Prop :=
  forall w, exists evs,
    log (snd (m w)) = log w ++ evs /\
    forall msg, fst (m w) = Panic msg -> Exists cause evs.

Definition no_cause (e : Event) : Prop := False.

(** No run of [m] panics. *)
Definition never_panics {A} (m : M A) : Prop :=
  forall w msg, fst (m w) <> Panic msg.

(** The seconds that an event sleeps. *)
Definition slept (e : Event) : Z :=
  match e with
  | Slept seconds => seconds
  | _ => 0
  end.

Definition Method_index (m : Method) : nat :=
  match m with
  | mGetState => 0 | mGetIP => 1 | mPreCreateCheck => 2 | mStart => 3
  | mStop => 4 | mRestart => 5 | mKill => 6 | mRemove => 7
  end.

(** One for an invocation of the method [m]. *)
Definition invoked (m : Method) (e : Event) : Z :=
  match e with
  | Invoke m' => if (Method_index m =? Method_index m')%nat then 1 else 0
  | _ => 0
  end.

(** The sum of a measure over a log. *)
Definition total (measure : Event -> Z) (evs : History) : Z :=
  fold_right (fun e n => (measure e + n)%Z) 0%Z evs.

(** Every run of [m] adds events of a total measure of at most [n]. *)
Definition costs {A} (measure : Event -> Z) (n : Z) (m : M A) : Prop :=
  forall w, exists evs,
    log (snd (m w)) = log w ++ evs /\ (total measure evs <= n)%Z.

(** ** Events of the state query and of the removal *)

(** The events of a state query: the marker, the login, the logout
    and the three read-only calls. *)
Definition is_query_event (e : Event) : Prop :=
  match e with
  | Invoke mGetState
  | Did (Login _ _ _ _) _
  | Did (DatacenterOrDefault _) _
  | Did (VirtualMachine _) _
  | DidRetrieveOne _
  | DidLogout => True
  | _ => False
  end.

(** The events before [Remove] turns to the datastore: no deletion
    and no destruction. *)
Definition before_removal (e : Event) : Prop :=
  match e with
  | Did (DeleteDatastoreFile _) _ | Did WaitDelete _
  | Did Destroy _ | Did WaitDestroy _ => False
  | _ => True
  end.

(** ** The flags the driver declares *)

Module mcnflag.

(** The three kinds of flag of [GetCreateFlags], with the fields the
    driver fills in; a field left out has its zero value. *)
Inductive Flag : Set :=
| IntFlag (Name EnvVar Usage : string) (Value : Z)
| StringFlag (Name EnvVar Usage Value : string)
| StringSliceFlag (Name EnvVar Usage : string) (Value : list string).

Definition Name (f : Flag) : string :=
  match f with
  | IntFlag n _ _ _ | StringFlag n _ _ _ | StringSliceFlag n _ _ _ => n
  end.

Definition EnvVar (f : Flag) : string :=
  match f with
  | IntFlag _ e _ _ | StringFlag _ e _ _ | StringSliceFlag _ e _ _ => e
  end.

End mcnflag.

Definition GetCreateFlags : list mcnflag.Flag :=
  [ mcnflag.IntFlag "vmwarevsphere-cpu-count" "VSPHERE_CPU_COUNT"
      "vSphere CPU number for docker VM" defaultCpus;
    mcnflag.IntFlag "vmwarevsphere-memory-size" "VSPHERE_MEMORY_SIZE"
      "vSphere size of memory for docker VM (in MB)" defaultMemory;
    mcnflag.IntFlag "vmwarevsphere-disk-size" "VSPHERE_DISK_SIZE"
      "vSphere size of disk for docker VM (in MB)" defaultDiskSize;
    mcnflag.StringFlag "vmwarevsphere-boot2docker-url" "VSPHERE_BOOT2DOCKER_URL"
      "vSphere URL for boot2docker image" "";
    mcnflag.StringFlag "vmwarevsphere-vcenter" "VSPHERE_VCENTER"
      "vSphere IP/hostname for vCenter" "";
    mcnflag.IntFlag "vmwarevsphere-vcenter-port" "VSPHERE_VCENTER_PORT"
      "vSphere Port for vCenter" defaultSDKPort;
    mcnflag.StringFlag "vmwarevsphere-username" "VSPHERE_USERNAME"
      "vSphere username" "";
    mcnflag.StringFlag "vmwarevsphere-password" "VSPHERE_PASSWORD"
      "vSphere password" "";
    mcnflag.StringSliceFlag "vmwarevsphere-network" "VSPHERE_NETWORK"
      "vSphere network where the docker VM will be attached" [];
    mcnflag.StringFlag "vmwarevsphere-datastore" "VSPHERE_DATASTORE"
      "vSphere datastore for docker VM" "";
    mcnflag.StringFlag "vmwarevsphere-datacenter" "VSPHERE_DATACENTER"
      "vSphere datacenter for docker VM" "";
    mcnflag.StringFlag "vmwarevsphere-folder" "VSPHERE_FOLDER"
      "vSphere folder for the docker VM. This folder must already exist in the datacenter." "";
    mcnflag.StringFlag "vmwarevsphere-pool" "VSPHERE_POOL"
      "vSphere resource pool for docker VM" "";
    mcnflag.StringFlag "vmwarevsphere-hostsystem" "VSPHERE_HOSTSYSTEM"
      "vSphere compute resource where the docker VM will be instantiated. This can be omitted if using a cluster with DRS." "";
    mcnflag.StringSliceFlag "vmwarevsphere-cfgparam" "VSPHERE_CFGPARAM"
      "vSphere vm configuration parameters (used for guestinfo)" [];
    mcnflag.StringFlag "vmwarevsphere-cloudinit" "VSPHERE_CLOUDINIT"
      "vSphere cloud-init file or url to set in the guestinfo" "" ].

(** ** Configuration from the flags *)

Module drivers.

(** The interface [drivers.DriverOptions], as the answers it gives. *)
Record DriverOptions : Type := {
  String : string -> string;
  StringSlice : string -> list string;
  Int : string -> Z;
  Bool : string -> bool
}.

End drivers.

(** Does the byte [c] occur in [s]. *)
Fixpoint hasByte (c : ascii) (s : string) : bool :=
  match s with
  | EmptyString => false
  | String x rest => Ascii.eqb c x || hasByte c rest
  end.

(** [strings.TrimLeft], [strings.TrimRight] and [strings.Trim], for a
    cutset of ASCII characters. *)
Fixpoint TrimLeft (s cutset : string) : string :=
  match s with
  | EmptyString => EmptyString
  | String c rest => if hasByte c cutset then TrimLeft rest cutset else s
  end.

Fixpoint TrimRight (s cutset : string) : string :=
  match s with
  | EmptyString => EmptyString
  | String c rest =>
      match TrimRight rest cutset with
      | EmptyString => if hasByte c cutset then EmptyString else String c EmptyString
      | t => String c t
      end
  end.

Definition Trim (s cutset : string) : string :=
  TrimRight (TrimLeft s cutset) cutset.

Section Config.

(** The two methods of [BaseDriver] that [SetConfigFromFlags] calls;
    their receiver is the embedded [*BaseDriver], so that is all they
    read or write. *)
Variable SetSwarmConfigFromFlags : drivers.DriverOptions -> BaseDriver -> BaseDriver.
Variable ResolveStorePath : BaseDriver -> string -> string.

Definition SetConfigFromFlags (flags : drivers.DriverOptions) : M (option error) :=
  modD (fun d =>
          let base :=
            SetSwarmConfigFromFlags flags
              {| IPAddress := IPAddress (Base d);
                 MachineName := MachineName (Base d);
                 SSHUser := "docker";
                 SSHPort := 22;
                 StorePath := StorePath (Base d) |} in
          {| Base := base;
             Memory := drivers.Int flags "vmwarevsphere-memory-size";
             DiskSize := drivers.Int flags "vmwarevsphere-disk-size";
             CPU := drivers.Int flags "vmwarevsphere-cpu-count";
             ISO := ResolveStorePath base isoFilename;
             Boot2DockerURL := drivers.String flags "vmwarevsphere-boot2docker-url";
             CPUS := CPUS d;
             IP := drivers.String flags "vmwarevsphere-vcenter";
             Port := drivers.Int flags "vmwarevsphere-vcenter-port";
             Username := drivers.String flags "vmwarevsphere-username";
             Password := drivers.String flags "vmwarevsphere-password";
             Network := Network d;
             Networks := drivers.StringSlice flags "vmwarevsphere-network";
             Datastore := drivers.String flags "vmwarevsphere-datastore";
             Datacenter := drivers.String flags "vmwarevsphere-datacenter";
             Folder := Trim (drivers.String flags "vmwarevsphere-folder") "/";
             Pool := drivers.String flags "vmwarevsphere-pool";
             HostSystem := drivers.String flags "vmwarevsphere-hostsystem";
             CfgParams := drivers.StringSlice flags "vmwarevsphere-cfgparam";
             CloudInit := drivers.String flags "vmwarevsphere-cloudinit";
             SSHPassword := SSHPassword d |}) ;;;
  ret None.

End Config.

(** Two sets of options answer the flag [f] alike, asked for the kind
    of value that the flag was declared with. *)
Definition same_answer (f : mcnflag.Flag) (a b : drivers.DriverOptions) : Prop :=
  match f with
  | mcnflag.IntFlag n _ _ _ => drivers.Int a n = drivers.Int b n
  | mcnflag.StringFlag n _ _ _ => drivers.String a n = drivers.String b n
  | mcnflag.StringSliceFlag n _ _ _ => drivers.StringSlice a n = drivers.StringSlice b n
  end.

(** ** The guestinfo options of Create *)

(** [strings.SplitN(s, sep, 2)] for a separator of one byte. *)
Fixpoint SplitN2 (s : string) (sep : ascii) : list string :=
  match s with
  | EmptyString => [EmptyString]
  | String c rest =>
      if Ascii.eqb c sep then [EmptyString; rest]
      else match SplitN2 rest sep with
           | k :: more => String c k :: more
           | [] => []
           end
  end.

(** The body of the loop over [d.CfgParams] in [Create]: the key and
    the value of one [types.OptionValue]. *)
Definition guestinfoOption (param : string) : Res (string * string) :=
  let v := SplitN2 param "=" in
  match nth_error v 0 with            (* key := v[0] *)
  | None => Panic "index out of range [0] with length 0"
  | Some key =>
      if (1 <? length v)%nat
      then match nth_error v 1 with   (* value = v[1] *)
           | None => Panic "index out of range [1]"
           | Some value => Ret (key, value)
           end
      else Ret (key, "")
  end.

(** The loop [for _, param := range d.CfgParams], from [opts]. *)
Fixpoint guestinfoOptions (cfgParams : list string) (opts : list (string * string))
  : Res (list (string * string)) :=
  match cfgParams with
  | [] => Ret opts
  | param :: rest =>
      match guestinfoOption param with
      | Ret kv => guestinfoOptions rest (opts ++ [kv])
      | Panic msg => Panic msg
      end
  end.

(** What one parameter gives: a key without ["="], and the value
    after the first ["="] if there is one. *)
Definition splits_as (param : string) (kv : string * string) : Prop :=
  hasByte "=" (fst kv) = false /\
  if hasByte "=" param
  then param = (fst kv ++ "=" ++ snd kv)%string
  else kv = (param, "").

(** The first and the last byte of a string, if it has one. *)
Definition firstByte (s : string) : option ascii :=
  match s with
  | EmptyString => None
  | String c _ => Some c
  end.

Fixpoint lastByte (s : string) : option ascii :=
  match s with
  | EmptyString => None
  | String c EmptyString => Some c
  | String _ rest => lastByte rest
  end.

(** ** More backends for the examples *)

(** The machine reports [poweredOff] until a power-on was requested. *)
Definition offUntilPoweredOn : History -> error + string :=
  fun h => if existsb is_power_on h then inr "poweredOn" else inr "poweredOff".

(** Flags that answer [folder] for the folder and the zero value for
    everything else. *)
Definition flagsWithFolder (folder : string) : drivers.DriverOptions :=
  {| drivers.String := fun name =>
       if String.eqb name "vmwarevsphere-folder" then folder else "";
     drivers.StringSlice := fun _ => [];
     drivers.Int := fun _ => 0%Z;
     drivers.Bool := fun _ => false |}.

(** * Properties *)

Lemma skipn_length_app {A} (l l' : list A) : skipn (length l) (l ++ l') = l'.
Proof. induction l; simpl; auto. Qed.

Lemma since_app w w' evs : log w' = log w ++ evs -> since w w' = evs.
Proof. unfold since; intros ->; apply skipn_length_app. Qed.

(** Symbolic execution of a method body: unfold the monad, then split
    on every answer of the backend the run depends on. *)
Ltac unfold_monad :=
  cbv [bind ret enter emit getD modD call RetrieveOne WaitForNetIP Folders
       FindFolder Sleep deferLogout vsphereLogin fetchVM lift panic] in *;
  cbn [fst snd drv log] in *.

Ltac split_run :=
  repeat match goal with
         | |- context [match ?x with _ => _ end] =>
             lazymatch x with
             | context [match _ with _ => _ end] => fail
             | _ => destruct x eqn:?; cbn beta iota delta [fst snd drv log]
             end
         end.

Ltac log_events :=
  unfold events_of; cbn beta iota delta [fst snd drv log];
  repeat match goal with
         | |- context [since ?w {| drv := ?d; log := ?l |}] =>
             rewrite (since_app w {| drv := d; log := l |} _
                        ltac:(cbn [log]; rewrite <- ?app_assoc; reflexivity))
         end.

Ltac in_list := cbn [In]; repeat first [left; reflexivity | right].

Ltac absurd_In :=
  let H := fresh in
  cbn [In app]; intros H;
  repeat (destruct H as [H|H]; try discriminate H); try contradiction.

(** ** GetState *)

(** C4.  When the property retrieval ([c.RetrieveOne]) of a [GetState]
    call fails with an error [e], [GetState] returns [state.None] with
    a nil error: the error is dropped, not returned. *)
Theorem GetState_drops_retrieve_error (env : Backend) (w : World) (e : error) :
  In (DidRetrieveOne (inl e)) (events_of (GetState env) w) ->
  fst (GetState env w) = Ret (state.None, None).
Proof.
  unfold events_of, GetState, GetState_body. unfold_monad.
  split_run; log_events; try (intros _; reflexivity); absurd_In.
Qed.

Lemma GetState_drops_retrieve_error_witness :
  fst (GetState (scripted noFailure
                   (fun _ => inl (Fault OtherFault "connection reset")) (inr []))
         dev)
  = Ret (state.None, None).
Proof.
  apply (GetState_drops_retrieve_error _ dev (Fault OtherFault "connection reset")).
  vm_compute. in_list.
Defined.

Lemma GetState_Running_inv (env : Backend) (w w' : World) :
  GetState env w = (Ret (state.Running, None), w') ->
  drv w' = drv w /\
  exists powerState,
    Contains powerState "poweredOn" = true /\
    log w' = log w ++ GetState_calls (drv w) (inr powerState).
Proof.
  unfold GetState, GetState_body, GetState_calls. unfold_monad.
  split_run; intros H; inversion H; subst; clear H.
  all: split; [reflexivity|]; eexists; (split; [eassumption|]).
  all: cbn [log]; rewrite <- !app_assoc; reflexivity.
Qed.

(** ** Start *)

(** C9.  When the state query that [Start] makes reports [Running],
    [Start] returns nil, the driver struct is unchanged, and the run
    consists of that state query alone, whose calls are the login, the
    two lookups, the property retrieval and the logout: the log holds
    no power-on request. *)
Theorem Start_on_running_host (env : Backend) (N : net.Pkg) (w w' : World) :
  GetState env (snd (enter mStart w)) = (Ret (state.Running, None), w') ->
  Start env N w = (Ret None, w') /\
  drv w' = drv w /\
  existsb is_power_on (since w w') = false /\
  exists powerState,
    Contains powerState "poweredOn" = true /\
    log w' = log w ++ Invoke mStart :: GetState_calls (drv w) (inr powerState).
Proof.
  intros H. split.
  - unfold Start, bind at 1. cbn [enter emit fst snd] in *.
    unfold bind. rewrite H. reflexivity.
  - apply GetState_Running_inv in H. cbn [enter emit snd drv log] in H.
    destruct H as [Hd (ps & Hps & Hl)]. split; [exact Hd|].
    rewrite <- app_assoc in Hl. cbn [app] in Hl.
    rewrite (since_app _ _ _ Hl). split; [reflexivity|]. exists ps; auto.
Qed.

Lemma Start_on_running_host_witness :
  let env := scripted noFailure (always "poweredOn") (inr []) in
  fst (Start env dotted.pkg dev) = Ret None /\
  drv (snd (Start env dotted.pkg dev)) = drv dev /\
  existsb is_power_on (events_of (Start env dotted.pkg) dev) = false.
Proof.
  intros env.
  set (w' := snd (GetState env (snd (enter mStart dev)))).
  destruct (Start_on_running_host env dotted.pkg dev w') as (HS & Hd & Hp & _).
  - vm_compute. reflexivity.
  - unfold events_of. rewrite HS. cbn [fst snd].
    split; [reflexivity|]. split; [exact Hd|exact Hp].
Defined.

Example dotted_examples :
  qualifies dotted.pkg "10.0.0.5" = true /\
  qualifies dotted.pkg "172.17.0.1" = false /\
  qualifies dotted.pkg "169.254.7.7" = false /\
  qualifies dotted.pkg "127.0.0.1" = false /\
  qualifies dotted.pkg "10.0.0.256" = false /\
  qualifies dotted.pkg "192.168.01.1" = false.
Proof. vm_compute. repeat split. Qed.

(** ** GetIP *)

Lemma pickPreferred_find (N : net.Pkg) (preferredIP : string) (ips : list string) :
  pickPreferred N preferredIP ips =
  match find (qualifies N) ips with
  | Some ip => ip
  | None => preferredIP
  end.
Proof.
  induction ips as [|ip rest IH]; cbn [pickPreferred find]; [reflexivity|].
  destruct (qualifies N ip); [reflexivity|exact IH].
Qed.

(** The guard of the outer loop holds for every list. *)
Lemma lenGuard_true (ips : list string) : lenGuard ips = true.
Proof. unfold lenGuard. apply Z.geb_le. lia. Qed.

Lemma selectIP_first_nonempty (N : net.Pkg) mac first more rest :
  exists ip,
    firstQualifyingOrFirst N (first :: more) = Some ip /\
    selectIP N ((mac, first :: more) :: rest) = Ret (ip, None).
Proof.
  unfold firstQualifyingOrFirst. cbn [selectIP nth_error].
  rewrite lenGuard_true, pickPreferred_find.
  destruct (find (qualifies N) (first :: more)); eexists; split; reflexivity.
Qed.

Lemma selectIP_first_empty (N : net.Pkg) mac rest :
  selectIP N ((mac, []) :: rest) = Panic "index out of range [0] with length 0".
Proof. reflexivity. Qed.

Ltac run_GetIP :=
  unfold events_of, GetIP, GetState, GetState_body; unfold_monad;
  split_run; log_events.

(** C1 (as amended).  [GetIP] returns [ErrHostIsNotRunning] whenever
    its state query yields a state other than [Running].  When the
    address wait answers with a map, [GetIP] looks only at the entry
    that the loop visits first: if the address list of that entry is
    not empty, [GetIP] returns the first address of that list that
    parses to a global-unicast IPv4 address other than 172.17.0.1, or
    the first address of that list when none of its addresses does. *)
Theorem GetIP_first_entry (env : Backend) (N : net.Pkg) (w : World) :
  (forall st err w1,
      GetState env (snd (enter mGetIP w)) = (Ret (st, err), w1) ->
      st <> state.Running ->
      GetIP env N w = (Ret ("", Some ErrHostIsNotRunning), w1)) /\
  (forall mac first more rest,
      In (DidWaitForNetIP (inr ((mac, first :: more) :: rest)))
         (events_of (GetIP env N) w) ->
      exists ip,
        firstQualifyingOrFirst N (first :: more) = Some ip /\
        fst (GetIP env N w) = Ret (ip, None)).
Proof.
  split.
  - intros st err w1 H Hst.
    unfold GetIP, bind at 1. cbn [enter emit fst snd] in *.
    unfold bind at 1. rewrite H.
    destruct st; try reflexivity. congruence.
  - intros mac first more rest.
    run_GetIP; absurd_In.
    all: match goal with
         | H : DidWaitForNetIP _ = DidWaitForNetIP _ |- _ =>
             injection H as ->
         end.
    all: apply selectIP_first_nonempty.
Qed.

Lemma GetIP_first_entry_witness :
  fst (GetIP (scripted noFailure (always "poweredOff") (inr [])) dotted.pkg dev)
  = Ret ("", Some ErrHostIsNotRunning) /\
  fst (GetIP (scripted noFailure (always "poweredOn")
                (inr [("00:50:56:00:00:01",
                       ["172.17.0.1"; "169.254.7.7"; "10.0.0.5"; "10.0.0.6"])]))
         dotted.pkg dev)
  = Ret ("10.0.0.5", None).
Proof.
  split.
  - set (env := scripted noFailure (always "poweredOff") (inr [])).
    rewrite (proj1 (GetIP_first_entry env dotted.pkg dev)
               state.Stopped None
               (snd (GetState env (snd (enter mGetIP dev))))).
    + reflexivity.
    + vm_compute. reflexivity.
    + discriminate.
  - set (reply := [("00:50:56:00:00:01",
                    ["172.17.0.1"; "169.254.7.7"; "10.0.0.5"; "10.0.0.6"])]).
    set (env := scripted noFailure (always "poweredOn") (inr reply)).
    destruct (proj2 (GetIP_first_entry env dotted.pkg dev)
                "00:50:56:00:00:01" "172.17.0.1"
                ["169.254.7.7"; "10.0.0.5"; "10.0.0.6"] [])
      as (ip & Hq & Hr).
    + vm_compute. in_list.
    + vm_compute in Hq. injection Hq as <-. exact Hr.
Defined.

(** C1 as stated fails on two inputs.  With two entries, the first of
    which holds only a link-local address, [GetIP] returns that
    address although the second entry holds a global-unicast IPv4
    address.  With one entry whose list is empty, [GetIP] returns
    neither an address nor an error. *)
Lemma GetIP_ignores_later_entries :
  qualifies dotted.pkg "169.254.7.7" = false /\
  qualifies dotted.pkg "10.0.0.5" = true /\
  fst (GetIP (scripted noFailure (always "poweredOn")
                (inr [("00:50:56:00:00:01", ["169.254.7.7"]);
                      ("00:50:56:00:00:02", ["10.0.0.5"])]))
         dotted.pkg dev)
  = Ret ("169.254.7.7", None) /\
  fst (GetIP (scripted noFailure (always "poweredOn")
                (inr [("00:50:56:00:00:01", [])]))
         dotted.pkg dev)
  = Panic "index out of range [0] with length 0".
Proof. vm_compute. repeat split. Qed.

(** C10 (as amended).  The guard [len(ips) >= 0] holds for every
    list.  When the entry of the address map that the loop visits
    first has an empty address list, [ips[0]] has no value and [GetIP]
    panics.  Every map with an entry whose list is empty has a
    visiting order that puts that entry first. *)
Theorem GetIP_empty_first_entry (env : Backend) (N : net.Pkg) (w : World) :
  (forall ips, lenGuard ips = true) /\
  (forall mac rest,
      In (DidWaitForNetIP (inr ((mac, []) :: rest))) (events_of (GetIP env N) w) ->
      nth_error (@nil string) 0 = None /\
      fst (GetIP env N w) = Panic "index out of range [0] with length 0") /\
  (forall (m : MacIPs) mac,
      In (mac, []) m ->
      exists rest,
        Permutation ((mac, []) :: rest) m /\
        selectIP N ((mac, []) :: rest) = Panic "index out of range [0] with length 0").
Proof.
  split; [exact lenGuard_true|]. split.
  - intros mac rest H. split; [reflexivity|]. revert H.
    run_GetIP; absurd_In.
    all: match goal with
         | H : DidWaitForNetIP _ = DidWaitForNetIP _ |- _ =>
             injection H as ->
         end.
    all: reflexivity.
  - intros m mac Hin. apply in_split in Hin. destruct Hin as (l1 & l2 & ->).
    exists (l1 ++ l2). split; [apply Permutation_middle|reflexivity].
Qed.

Lemma GetIP_empty_first_entry_witness :
  fst (GetIP (scripted noFailure (always "poweredOn")
                (inr [("00:50:56:00:00:01", []);
                      ("00:50:56:00:00:02", ["10.0.0.5"])]))
         dotted.pkg dev)
  = Panic "index out of range [0] with length 0".
Proof.
  set (env := scripted noFailure (always "poweredOn")
                (inr [("00:50:56:00:00:01", []);
                      ("00:50:56:00:00:02", ["10.0.0.5"])])).
  apply (proj1 (proj2 (GetIP_empty_first_entry env dotted.pkg dev))
           "00:50:56:00:00:01" [("00:50:56:00:00:02", ["10.0.0.5"])]).
  vm_compute. in_list.
Defined.

(** C10 as stated fails when the entry with the empty list is not the
    one visited first: the map holds an entry with an empty list, and
    [GetIP] returns the address of the other entry. *)
Lemma GetIP_empty_later_entry :
  let reply := [("00:50:56:00:00:01", ["10.0.0.5"]);
                ("00:50:56:00:00:02", [])] in
  let env := scripted noFailure (always "poweredOn") (inr reply) in
  In ("00:50:56:00:00:02", []) reply /\
  In (DidWaitForNetIP (inr reply)) (events_of (GetIP env dotted.pkg) dev) /\
  fst (GetIP env dotted.pkg dev) = Ret ("10.0.0.5", None).
Proof. vm_compute. repeat split; in_list. Qed.

(** ** Remove *)

(** C2.  When the wait for the deletion of the boot ISO fails with a
    file-not-found error, [Remove] returns nil at once: the log of the
    run holds no [Destroy] call, so the virtual machine is left in
    place. *)
Theorem Remove_file_not_found_skips_destroy (env : Backend) (w : World) (msg : string) :
  In (Did WaitDelete (Some (Fault FileNotFound msg))) (events_of (Remove env) w) ->
  fst (Remove env w) = Ret None /\
  forall r, ~ In (Did Destroy r) (events_of (Remove env) w).
Proof.
  unfold events_of, Remove, Remove_afterStop, Kill, GetState, GetState_body.
  unfold_monad.
  split_run; log_events; absurd_In.
  all: match goal with
       | H : Did _ _ = Did _ _ |- _ => injection H as ?; subst
       end.
  all: try discriminate.
  all: split; [reflexivity|]; intros r; absurd_In.
Qed.

Lemma Remove_file_not_found_skips_destroy_witness :
  let env := scripted (fun _ c => match c with
                                  | WaitDelete => Some (Fault FileNotFound "boot2docker.iso")
                                  | _ => None
                                  end)
                      (always "poweredOff") (inr []) in
  fst (Remove env dev) = Ret None /\
  forall r, ~ In (Did Destroy r) (events_of (Remove env) dev).
Proof.
  intros env.
  apply (Remove_file_not_found_skips_destroy env dev "boot2docker.iso").
  vm_compute. in_list.
Defined.

(** ** Composing runs *)

Section Respects.

Variable R : World -> World -> Prop.
Context {R_pre : PreOrder R}.

Lemma respects_ret {A} (a : A) : respects R (ret a).
Proof. intros w. reflexivity. Qed.

Lemma respects_lift {A} (r : Res A) : respects R (lift r).
Proof. intros w. reflexivity. Qed.

Lemma respects_panic {A} (msg : string) : respects R (@panic A msg).
Proof. intros w. reflexivity. Qed.

Lemma respects_getD : respects R getD.
Proof. intros w. reflexivity. Qed.

Lemma respects_bind {A B} (m : M A) (k : A -> M B) :
  respects R m -> (forall a, respects R (k a)) -> respects R (bind m k).
Proof.
  intros Hm Hk w. unfold bind. specialize (Hm w).
  destruct (m w) as [[a|msg] w1]; cbn [snd] in *; [|exact Hm].
  etransitivity; [exact Hm|apply Hk].
Qed.

Lemma respects_emit (e : Event) : step R e -> respects R (emit e).
Proof. intros H w. apply H. Qed.

Lemma respects_modD (f : Driver -> Driver) : writes R f -> respects R (modD f).
Proof. intros H w. apply H. Qed.

Section Calls.

Variable env : Backend.

Lemma respects_call (c : Call) :
  (forall r, step R (Did c r)) -> respects R (call env c).
Proof. intros H w. apply H. Qed.

Lemma respects_RetrieveOne :
  (forall r, step R (DidRetrieveOne r)) -> respects R (RetrieveOne env).
Proof. intros H w. apply H. Qed.

Lemma respects_WaitForNetIP :
  (forall r, step R (DidWaitForNetIP r)) -> respects R (WaitForNetIP env).
Proof. intros H w. apply H. Qed.

Lemma respects_Folders :
  (forall r, step R (DidFolders r)) -> respects R (Folders env).
Proof. intros H w. apply H. Qed.

Lemma respects_FindFolder (path : string) :
  (forall r, step R (DidFolder path r)) -> respects R (FindFolder env path).
Proof. intros H w. apply H. Qed.

Lemma respects_deferLogout {A} (body : M A) :
  step R DidLogout -> respects R body -> respects R (deferLogout body).
Proof.
  intros Hs Hb w. unfold deferLogout. specialize (Hb w).
  destruct (body w) as [r w1]; cbn [snd] in *.
  etransitivity; [exact Hb|apply Hs].
Qed.

End Calls.

End Respects.

#[export] Instance logs_PreOrder (Q : Event -> Prop) : PreOrder (logs Q).
Proof.
  split.
  - intros w. exists []. split; [symmetry; apply app_nil_r|constructor].
  - intros a b c (e1 & H1 & Q1) (e2 & H2 & Q2). exists (e1 ++ e2). split.
    + rewrite H2, H1, app_assoc. reflexivity.
    + apply Forall_app; split; assumption.
Qed.

Lemma logs_step (Q : Event -> Prop) (e : Event) : Q e -> step (logs Q) e.
Proof. intros H w. exists [e]. split; [reflexivity|]. repeat constructor; exact H. Qed.

Lemma logs_writes (Q : Event -> Prop) (f : Driver -> Driver) : writes (logs Q) f.
Proof. intros w. exists []. split; [symmetry; apply app_nil_r|constructor]. Qed.

(** Decompose a run into its steps; what is left are the conditions
    on the single events and on the methods called. *)
Ltac respects_steps :=
  repeat first
    [ assumption
    | match goal with
      | |- PreOrder _ => typeclasses eauto
      | |- forall _, _ => intro
      | |- _ -> _ => intro
      | |- respects _ (match ?x with _ => _ end) => destruct x
      end
    | apply respects_ret
    | apply respects_lift
    | apply respects_panic
    | apply respects_getD
    | apply respects_bind
    | apply respects_deferLogout
    | apply respects_emit
    | apply respects_modD
    | apply respects_call
    | apply respects_RetrieveOne
    | apply respects_WaitForNetIP
    | apply respects_Folders
    | apply respects_FindFolder ].

Ltac no_invoke :=
  try (apply logs_step); try (apply logs_writes);
  cbn [no_invoke_of In]; try exact I; intuition discriminate.

Lemma GetState_logs (env : Backend) (ms : list Method) :
  ~ In mGetState ms -> respects (logs (no_invoke_of ms)) (GetState env).
Proof.
  intros H. unfold GetState, GetState_body, enter, vsphereLogin, fetchVM.
  respects_steps; no_invoke.
Qed.

Lemma logs_after_enter {A} (Q : Event -> Prop) (m : Method) (body : M A) :
  respects (logs Q) body ->
  forall w, exists evs,
    log (snd ((enter m ;;; body) w)) = log w ++ Invoke m :: evs /\ Forall Q evs.
Proof.
  intros H w. unfold bind, enter, emit.
  destruct (H {| drv := drv w; log := log w ++ [Invoke m] |}) as (evs & Hl & HQ).
  exists evs. split; [|exact HQ].
  rewrite Hl. cbn [log]. rewrite <- app_assoc. reflexivity.
Qed.

Lemma GetState_log (env : Backend) (ms : list Method) (w : World) :
  exists evs,
    log (snd (GetState env w)) = log w ++ Invoke mGetState :: evs /\
    Forall (no_invoke_of (mGetState :: ms)) evs.
Proof.
  apply logs_after_enter.
  unfold GetState_body, vsphereLogin, fetchVM.
  respects_steps; no_invoke.
Qed.

Lemma GetIP_logs (env : Backend) (N : net.Pkg) (ms : list Method) :
  ~ In mGetState ms -> ~ In mGetIP ms ->
  respects (logs (no_invoke_of ms)) (GetIP env N).
Proof.
  intros H1 H2. unfold GetIP, enter, vsphereLogin, fetchVM.
  respects_steps; no_invoke.
Qed.

Lemma Stop_logs (env : Backend) (ms : list Method) :
  ~ In mStop ms -> respects (logs (no_invoke_of ms)) (Stop env).
Proof.
  intros H. unfold Stop, enter, vsphereLogin, fetchVM.
  respects_steps; no_invoke.
Qed.

Lemma Kill_log (env : Backend) (w : World) :
  exists evs,
    log (snd (Kill env w)) = log w ++ Invoke mKill :: evs /\
    Forall (no_invoke_of [mKill; mStart]) evs.
Proof.
  apply logs_after_enter. unfold vsphereLogin, fetchVM.
  respects_steps; no_invoke.
Qed.

Lemma Start_log (env : Backend) (N : net.Pkg) (w : World) :
  exists evs,
    log (snd (Start env N w)) = log w ++ Invoke mStart :: evs /\
    Forall (no_invoke_of [mKill; mStart]) evs.
Proof.
  apply logs_after_enter. unfold vsphereLogin, fetchVM.
  respects_steps; no_invoke.
Qed.

Lemma quiet_filter (evs : History) :
  Forall (no_invoke_of [mKill; mStart]) evs -> filter is_kill_or_start evs = [].
Proof.
  induction 1 as [|e evs He _ IH]; [reflexivity|].
  cbn [filter]. rewrite IH.
  destruct e as [[] | | | | | | |]; cbn in *; try reflexivity; tauto.
Qed.

Lemma no_poll_filter (evs : History) :
  Forall (no_invoke_of [mGetState; mKill; mStart]) evs ->
  filter is_poll evs = [] /\ filter is_kill_or_start evs = [].
Proof.
  induction 1 as [|e evs He _ [IH1 IH2]]; [split; reflexivity|].
  cbn [filter]. rewrite IH1, IH2.
  destruct e as [[] | | | | | | |]; cbn in *; try (split; reflexivity); tauto.
Qed.

Lemma adds_polls_trans n m a b c :
  adds_polls n a b -> adds_polls m b c -> adds_polls (n + m) a c.
Proof.
  intros (e1 & H1 & K1 & P1) (e2 & H2 & K2 & P2). exists (e1 ++ e2).
  rewrite H2, H1, app_assoc, !filter_app, K1, K2, length_app, P1, P2.
  auto.
Qed.

Lemma adds_polls_refl w : adds_polls 0 w w.
Proof. exists []. rewrite app_nil_r. auto. Qed.

Lemma GetState_adds_poll (env : Backend) (w w' : World) r :
  GetState env w = (r, w') -> adds_polls 1 w w'.
Proof.
  intros H. destruct (GetState_log env [mKill; mStart] w) as (evs & Hl & HQ).
  rewrite H in Hl. cbn [snd] in Hl.
  apply no_poll_filter in HQ. destruct HQ as [HP HK].
  exists (Invoke mGetState :: evs). cbn [filter is_poll is_kill_or_start].
  rewrite HP, HK. auto.
Qed.

Lemma quiet_adds_polls w w' :
  logs (no_invoke_of [mGetState; mKill; mStart]) w w' -> adds_polls 0 w w'.
Proof.
  intros (evs & Hl & HQ). apply no_poll_filter in HQ. destruct HQ as [HP HK].
  exists evs. rewrite HP, HK. auto.
Qed.

Lemma polls_adds (env : Backend) (goes_on : state.State -> bool) (n : nat) :
  forall w w', polls env goes_on n w = Some w' -> adds_polls n w w'.
Proof.
  induction n as [|n IH]; intros w w' H; cbn [polls] in H.
  - injection H as <-. apply adds_polls_refl.
  - destruct (GetState env w) as [[[st [e|]]|msg] w1] eqn:G; try discriminate.
    destruct (goes_on st); [|discriminate].
    apply GetState_adds_poll in G. apply IH in H.
    change (S n) with (1 + n)%nat. eapply adds_polls_trans; [exact G|].
    destruct (state.eqb st state.Running); [|exact H].
    replace n with (0 + n)%nat by reflexivity.
    eapply adds_polls_trans; [|exact H].
    apply quiet_adds_polls. apply logs_step. exact I.
Qed.

(** The loop goes through the state queries that [polls] describes. *)
Lemma Restart_loop_polls (env : Backend) (goes_on : state.State -> bool) :
  (forall st, goes_on st = true -> state.eqb st state.Stopped = false) ->
  forall n k w w',
    polls env goes_on n w = Some w' ->
    Restart_loop env (n + k) w = Restart_loop env k w'.
Proof.
  intros Hgo. induction n as [|n IH]; intros k w w' H; cbn [polls] in H.
  - injection H as <-. reflexivity.
  - cbn [Nat.add Restart_loop]. unfold bind at 1.
    destruct (GetState env w) as [[[st [e|]]|msg] w1] eqn:G; try discriminate.
    destruct (goes_on st) eqn:Hst; [|discriminate].
    apply Hgo in Hst.
    destruct (state.eqb st state.Running) eqn:Hr.
    + unfold bind, Sleep, emit. cbn [snd] in *. apply IH. exact H.
    + rewrite Hst. apply IH. exact H.
Qed.

(** ** Restart *)

Lemma Stop_adds_no_poll (env : Backend) (w w' : World) r :
  Stop env w = (r, w') -> adds_polls 0 w w'.
Proof.
  intros H. apply quiet_adds_polls.
  pose proof (Stop_logs env [mGetState; mKill; mStart]) as L.
  specialize (L ltac:(cbn [In]; intuition discriminate) w).
  rewrite H in L. exact L.
Qed.

Lemma enter_log (m : Method) (w : World) :
  log (snd (enter m w)) = log w ++ [Invoke m].
Proof. reflexivity. Qed.

Lemma Restart_loop_S (env : Backend) (n : nat) :
  Restart_loop env (S n) =
  (st <- GetState env ;;
   let (machineState, err) := st in
   match err with
   | Some e => ret (Returns e)
   | None =>
       if state.eqb machineState state.Running
       then Sleep 2 ;;; Restart_loop env n
       else if state.eqb machineState state.Stopped
       then ret Leaves
       else Restart_loop env n
   end).
Proof. reflexivity. Qed.

(** [Restart] up to the end of its loop, when [Stop] succeeds. *)
Lemma Restart_after_Stop (env : Backend) (N : net.Pkg) (w w1 : World) :
  Stop env (snd (enter mRestart w)) = (Ret None, w1) ->
  Restart env N w =
  (x <- Restart_loop env 60 ;;
   match x with
   | Returns e => ret (Some e)
   | Leaves =>
       st <- GetState env ;;
       let (machineState, _) := st in
       if state.eqb machineState state.Running then
         err <- Kill env ;;
         match err with
         | Some e => ret (Some (ErrCantStopVM e))
         | None => Start env N
         end
       else Start env N
   end) w1.
Proof.
  intros H. unfold Restart. unfold bind at 1 2. cbn [enter emit fst snd] in *.
  rewrite H. reflexivity.
Qed.

(** C6 (as amended).  When [Stop] succeeds, each of the 60 state
    queries of the loop reports [Running], and so does the query after
    the loop, [Restart] invokes [Kill] once.  If [Kill] returns nil,
    [Restart] goes on as [Start] does, and the run invokes [Kill] once
    and then [Start] once; if [Kill] returns an error, [Restart]
    returns it wrapped as "can't stop VM" and [Start] is not invoked. *)
Theorem Restart_kills_after_budget (env : Backend) (N : net.Pkg)
    (w w1 w2 w3 w4 : World) (err kerr : option error) :
  Stop env (snd (enter mRestart w)) = (Ret None, w1) ->
  polls env is_Running 60 w1 = Some w2 ->
  GetState env w2 = (Ret (state.Running, err), w3) ->
  Kill env w3 = (Ret kerr, w4) ->
  match kerr with
  | None =>
      Restart env N w = Start env N w4 /\
      filter is_kill_or_start (events_of (Restart env N) w)
      = [Invoke mKill; Invoke mStart]
  | Some e =>
      Restart env N w = (Ret (Some (ErrCantStopVM e)), w4) /\
      filter is_kill_or_start (events_of (Restart env N) w) = [Invoke mKill]
  end.
Proof.
  intros HS HP HG HK.
  assert (HR : Restart env N w =
               match kerr with
               | None => Start env N w4
               | Some e => (Ret (Some (ErrCantStopVM e)), w4)
               end).
  { rewrite (Restart_after_Stop env N w w1 HS). unfold bind at 1.
    change 60%nat with (60 + 0)%nat.
    rewrite (Restart_loop_polls env is_Running) with (w' := w2); [|intros [] E; (discriminate E || reflexivity)|exact HP].
    cbn [Restart_loop ret]. unfold bind at 1. rewrite HG. cbn [state.eqb].
    unfold bind. rewrite HK. destruct kerr; reflexivity. }
  assert (H03 : adds_polls (0 + 60 + 1) (snd (enter mRestart w)) w3).
  { eapply adds_polls_trans; [eapply adds_polls_trans|].
    - eapply Stop_adds_no_poll; exact HS.
    - eapply polls_adds; exact HP.
    - eapply GetState_adds_poll; exact HG. }
  destruct H03 as (e03 & L03 & K03 & _). rewrite enter_log in L03.
  destruct (Kill_log env w3) as (e4 & L4 & Q4). rewrite HK in L4. cbn [snd] in L4.
  apply quiet_filter in Q4.
  destruct kerr as [e|].
  - split; [exact HR|]. unfold events_of. rewrite HR. cbn [snd].
    erewrite since_app.
    2:{ rewrite L4, L03, <- !app_assoc. reflexivity. }
    cbn [app filter is_kill_or_start]. rewrite filter_app, K03.
    cbn [app filter is_kill_or_start]. rewrite Q4. reflexivity.
  - split; [exact HR|]. unfold events_of. rewrite HR.
    destruct (Start_log env N w4) as (e5 & L5 & Q5). apply quiet_filter in Q5.
    erewrite since_app.
    2:{ rewrite L5, L4, L03, <- !app_assoc. reflexivity. }
    cbn [app filter is_kill_or_start]. rewrite filter_app, K03.
    cbn [app filter is_kill_or_start]. rewrite filter_app, Q4.
    cbn [app filter is_kill_or_start]. rewrite Q5. reflexivity.
Qed.

Lemma Restart_kills_after_budget_witness :
  let env := scripted noFailure (always "poweredOn") (inr []) in
  filter is_kill_or_start (events_of (Restart env dotted.pkg) dev)
  = [Invoke mKill; Invoke mStart].
Proof.
  intros env.
  set (w1 := snd (Stop env (snd (enter mRestart dev)))).
  set (w2 := match polls env is_Running 60 w1 with Some x => x | None => dev end).
  set (w3 := snd (GetState env w2)).
  set (w4 := snd (Kill env w3)).
  apply (Restart_kills_after_budget env dotted.pkg dev w1 w2 w3 w4 None None).
  - vm_compute. reflexivity.
  - vm_compute. reflexivity.
  - vm_compute. reflexivity.
  - vm_compute. reflexivity.
Defined.

(** C6 as stated fails when the power-off fails: the state is
    [Running] at each of the 60 queries and after them, [Kill] is
    invoked once, and [Restart] returns its error without invoking
    [Start]. *)
Lemma Restart_failed_Kill_skips_Start :
  let env := scripted (fun _ c => match c with
                                  | PowerOff => Some (Fault OtherFault "host unreachable")
                                  | _ => None
                                  end)
                      (always "poweredOn") (inr []) in
  polls env is_Running 60 (snd (Stop env (snd (enter mRestart dev)))) <> None /\
  fst (Restart env dotted.pkg dev)
  = Ret (Some (ErrCantStopVM (Fault OtherFault "host unreachable"))) /\
  filter is_kill_or_start (events_of (Restart env dotted.pkg) dev) = [Invoke mKill].
Proof. vm_compute. repeat split. discriminate. Qed.



Lemma GetState_never_Error (env : Backend) (w : World) :
  forall err, fst (GetState env w) <> Ret (state.Error, err).
Proof.
  intros err. unfold GetState, GetState_body. unfold_monad.
  split_run; discriminate.
Qed.

(** What the loop does not take for an error.  [GetState] of this
    driver never reports the state [Error] ([GetState_never_Error]); a
    failed property retrieval and a power state that is neither on nor
    off both come back as [None] with a nil error.  [Restart] then
    makes all 60 queries of the loop, the query after the loop, and
    invokes [Start], which queries once more and returns nil. *)
Lemma Restart_polls_on_through_trouble :
  let failing := scripted noFailure
                   (fun _ => inl (Fault OtherFault "internal error")) (inr []) in
  let unknown := scripted noFailure (always "suspended") (inr []) in
  (fst (Restart failing dotted.pkg dev) = Ret None /\
   length (filter is_poll (events_of (Restart failing dotted.pkg) dev)) = 62%nat /\
   filter is_kill_or_start (events_of (Restart failing dotted.pkg) dev) = [Invoke mStart]) /\
  (fst (Restart unknown dotted.pkg dev) = Ret None /\
   length (filter is_poll (events_of (Restart unknown dotted.pkg) dev)) = 62%nat /\
   filter is_kill_or_start (events_of (Restart unknown dotted.pkg) dev) = [Invoke mStart]).
Proof. vm_compute. repeat split. Qed.

(** C8 (as amended).  When [Stop] succeeds, the first state query of
    the loop reports [Stopped], and the query after the loop reports
    a state other than [Running], [Restart] goes on as [Start] does,
    and the run invokes [Start] once and [Kill] never. *)
Theorem Restart_after_graceful_stop (env : Backend) (N : net.Pkg)
    (w w1 w2 w3 : World) (st : state.State) (err : option error) :
  Stop env (snd (enter mRestart w)) = (Ret None, w1) ->
  GetState env w1 = (Ret (state.Stopped, None), w2) ->
  GetState env w2 = (Ret (st, err), w3) ->
  st <> state.Running ->
  Restart env N w = Start env N w3 /\
  filter is_kill_or_start (events_of (Restart env N) w) = [Invoke mStart].
Proof.
  intros HS H1 H2 Hst.
  assert (HR : Restart env N w = Start env N w3).
  { rewrite (Restart_after_Stop env N w w1 HS). unfold bind at 1.
    rewrite (Restart_loop_S env 59). unfold bind at 1. rewrite H1.
    cbn [state.eqb ret]. unfold bind at 1. rewrite H2.
    destruct st; try reflexivity. congruence. }
  split; [exact HR|]. unfold events_of. rewrite HR.
  assert (H03 : adds_polls (0 + 1 + 1) (snd (enter mRestart w)) w3).
  { eapply adds_polls_trans; [eapply adds_polls_trans|].
    - eapply Stop_adds_no_poll; exact HS.
    - eapply GetState_adds_poll; exact H1.
    - eapply GetState_adds_poll; exact H2. }
  destruct H03 as (e03 & L03 & K03 & _). rewrite enter_log in L03.
  destruct (Start_log env N w3) as (e5 & L5 & Q5). apply quiet_filter in Q5.
  erewrite since_app.
  2:{ rewrite L5, L03, <- !app_assoc. reflexivity. }
  cbn [app filter is_kill_or_start]. rewrite filter_app, K03.
  cbn [app filter is_kill_or_start]. rewrite Q5. reflexivity.
Qed.

Lemma Restart_after_graceful_stop_witness :
  let env := scripted noFailure (always "poweredOff")
               (inr [("00:50:56:00:00:01", ["10.0.0.5"])]) in
  filter is_kill_or_start (events_of (Restart env dotted.pkg) dev) = [Invoke mStart].
Proof.
  intros env.
  set (w1 := snd (Stop env (snd (enter mRestart dev)))).
  set (w2 := snd (GetState env w1)).
  set (w3 := snd (GetState env w2)).
  apply (Restart_after_graceful_stop env dotted.pkg dev w1 w2 w3 state.Stopped None).
  - vm_compute. reflexivity.
  - vm_compute. reflexivity.
  - vm_compute. reflexivity.
  - discriminate.
Defined.

(** C8 as stated fails when the machine is reported [Stopped] at the
    first query of the loop and [Running] at the query after the loop:
    [Restart] then invokes [Kill] before [Start]. *)
Lemma Restart_kills_after_reported_stop :
  let env := scripted noFailure
               (fun h => if (retrievals h =? 0)%nat
                         then inr "poweredOff" else inr "poweredOn")
               (inr []) in
  let w1 := snd (Stop env (snd (enter mRestart dev))) in
  fst (Stop env (snd (enter mRestart dev))) = Ret None /\
  fst (GetState env w1) = Ret (state.Stopped, None) /\
  filter is_kill_or_start (events_of (Restart env dotted.pkg) dev)
  = [Invoke mKill; Invoke mStart].
Proof. vm_compute. repeat split. Qed.

(** ** PreCreateCheck *)

#[export] Instance same_drv_PreOrder : PreOrder same_drv.
Proof.
  split.
  - intros w. reflexivity.
  - intros a b c H1 H2. unfold same_drv in *. congruence.
Qed.

Lemma same_drv_step (e : Event) : step same_drv e.
Proof. intros w. reflexivity. Qed.

#[export] Instance defaults_networks_PreOrder : PreOrder defaults_networks.
Proof.
  split.
  - intros w. unfold defaults_networks, same_but_networks.
    repeat split; auto. destruct (drv w). reflexivity.
  - intros a b c (S1 & N1 & M1) (S2 & N2 & M2).
    unfold defaults_networks, same_but_networks in *. repeat split.
    + rewrite S2 at 1. rewrite S1 at 1. destruct (drv a). reflexivity.
    + destruct N2 as [N2|[N2 N2']], N1 as [N1|[N1 N1']];
        try (left; congruence); try (right; split; congruence).
    + destruct M2 as [M2|M2]; [|right; exact M2].
      destruct M1 as [M1|M1]; [left; congruence|].
      right. rewrite M2.
      destruct N2 as [N2|[N2 _]]; [rewrite N2; exact M1|].
      rewrite N2 in M1. discriminate.
Qed.

Lemma same_drv_defaults w w' : same_drv w w' -> defaults_networks w w'.
Proof.
  unfold same_drv, defaults_networks, same_but_networks. intros ->.
  repeat split; auto. destruct (drv w). reflexivity.
Qed.

Lemma defaults_networks_step (e : Event) : step defaults_networks e.
Proof. intros w. apply same_drv_defaults. reflexivity. Qed.

Lemma checkNetworks_respects (env : Backend) (R : World -> World -> Prop)
    `{PreOrder _ R} (networks : list string) :
  (forall n r, step R (Did (NetworkOrDefault n) r)) ->
  respects R (checkNetworks env networks).
Proof.
  intros HR. induction networks as [|n rest IH]; cbn [checkNetworks];
    respects_steps; apply HR.
Qed.

Lemma checkHostAndPool_same_drv (env : Backend) :
  respects same_drv (checkHostAndPool env).
Proof.
  unfold checkHostAndPool, checkPool.
  respects_steps; apply same_drv_step.
Qed.

Lemma checkNetworksAndRest_defaults (env : Backend) :
  respects defaults_networks (checkNetworksAndRest env).
Proof.
  intros w. unfold checkNetworksAndRest.
  unfold bind at 1. cbn [getD]. unfold bind at 1.
  set (w1 := snd ((if (length (Networks (drv w)) =? 0)%nat
                   then modD (set_Networks (Networks (drv w) ++ ["VM Network"]))
                   else ret tt) w)).
  assert (H1 : defaults_networks w w1).
  { subst w1. destruct (Networks (drv w)) as [|n l] eqn:E; cbn.
    - unfold defaults_networks, same_but_networks. cbn. rewrite E.
      repeat split; auto.
    - reflexivity. }
  assert (E1 : (if (length (Networks (drv w)) =? 0)%nat
                then modD (set_Networks (Networks (drv w) ++ ["VM Network"]))
                else ret tt) w = (Ret tt, w1)).
  { subst w1. destruct (length (Networks (drv w)) =? 0)%nat; reflexivity. }
  rewrite E1. unfold bind at 1. cbn [getD]. unfold bind at 1.
  pose proof (checkNetworks_respects env same_drv (Networks (drv w1))
                (fun n r => same_drv_step _) w1) as H2.
  destruct (checkNetworks env (Networks (drv w1)) w1) as [[[e|]|msg] w2];
    cbn [snd] in *;
    try (etransitivity; [exact H1|apply same_drv_defaults; exact H2]).
  unfold bind at 1. cbn [getD].
  destruct (nth_error (Networks (drv w2)) 0) as [n0|] eqn:E0;
    [|etransitivity; [exact H1|apply same_drv_defaults; exact H2]].
  unfold bind at 1. cbn [modD].
  set (w3 := {| drv := set_Network n0 (drv w2); log := log w2 |}).
  assert (H3 : defaults_networks w2 w3).
  { unfold defaults_networks, same_but_networks. subst w3. cbn.
    repeat split; auto. }
  pose proof (checkHostAndPool_same_drv env w3) as H4.
  etransitivity; [exact H1|]. etransitivity; [apply same_drv_defaults; exact H2|].
  etransitivity; [exact H3|apply same_drv_defaults; exact H4].
Qed.

Lemma PreCreateCheck_defaults (env : Backend) :
  respects defaults_networks (PreCreateCheck env).
Proof.
  pose proof (checkNetworksAndRest_defaults env) as L.
  unfold PreCreateCheck, checkDatastoreAndRest, enter, vsphereLogin.
  respects_steps; apply defaults_networks_step.
Qed.

Lemma PreCreateCheck_lookups (env : Backend) :
  respects (logs is_lookup) (PreCreateCheck env).
Proof.
  pose proof (fun l => checkNetworks_respects env (logs is_lookup) l
                         (fun n r => logs_step is_lookup (Did (NetworkOrDefault n) r) I)) as L.
  unfold PreCreateCheck, checkDatastoreAndRest, checkNetworksAndRest,
    checkHostAndPool, checkPool, enter, vsphereLogin.
  respects_steps; try apply L; try apply logs_writes; apply logs_step; exact I.
Qed.

(** The loop over the networks stops at the first lookup that fails
    and returns its error. *)
Lemma checkNetworks_run (env : Backend) (d : Driver) (networks : list string) :
  forall w, exists evs,
    log (snd (checkNetworks env networks w)) = log w ++ evs /\
    match fst (checkNetworks env networks w) with
    | Ret None => forall ev, In ev evs -> failure_of d ev = None
    | Ret (Some e) => forall ev err, In ev evs -> failure_of d ev = Some err -> err = e
    | Panic _ => False
    end.
Proof.
  induction networks as [|n rest IH]; intros w; cbn [checkNetworks].
  - exists []. cbn. rewrite app_nil_r. split; [reflexivity|]. intros ev [].
  - unfold bind, call. cbn [fst snd].
    destruct (on_call env (log w) (NetworkOrDefault n)) as [e|] eqn:E.
    + exists [Did (NetworkOrDefault n) (Some e)]. cbn. split; [reflexivity|].
      intros ev err [<-|[]] H. cbn in H. congruence.
    + destruct (IH {| drv := drv w; log := log w ++ [Did (NetworkOrDefault n) None] |})
        as (evs & Hl & Hr).
      exists (Did (NetworkOrDefault n) None :: evs). split.
      * rewrite Hl. cbn [log]. rewrite <- app_assoc. reflexivity.
      * destruct (fst (checkNetworks env rest _)) as [[e|]|msg]; [| |exact Hr].
        -- intros ev err [<-|Hin] H; [discriminate H|eapply Hr; eassumption].
        -- intros ev [<-|Hin]; [reflexivity|apply Hr; exact Hin].
Qed.

Lemma PreCreateCheck_fails_fast (env : Backend) (w : World) (ev : Event) (err : error) :
  In ev (events_of (PreCreateCheck env) w) ->
  failure_of (drv w) ev = Some err ->
  fst (PreCreateCheck env w) = Ret (Some err).
Proof.
  unfold events_of, PreCreateCheck, checkDatastoreAndRest, checkNetworksAndRest,
    checkHostAndPool, checkPool.
  unfold_monad.
  split_run.
  all: subst.
  all: repeat match goal with
       | H : checkNetworks ?b ?l ?w1 = (?r, ?w2) |- context [failure_of ?d _] =>
           let evs := fresh "evs" in
           let Hl := fresh "Hl" in
           let Hr := fresh "Hr" in
           destruct (checkNetworks_run b d l w1) as (evs & Hl & Hr);
           rewrite H in Hl, Hr; cbn [fst snd log] in Hl, Hr; clear H;
           try rewrite Hl
       end.
  all: try contradiction.
  all: try match goal with
       | |- _ -> _ -> Ret ?x = _ =>
           lazymatch x with on_call _ _ _ => destruct x eqn:? end
       end.
  all: log_events; cbn [app].
  all: intros Hin Hf.
  all: repeat match type of Hin with
       | In _ (_ :: _) => destruct Hin as [<-|Hin]
       | In _ (_ ++ _) => apply in_app_or in Hin; destruct Hin as [Hin|Hin]
       | In _ [] => destruct Hin
       end.
  all: try (cbn [failure_of] in Hf; discriminate Hf).
  all: try (cbn [failure_of] in Hf; injection Hf as <-; reflexivity).
  all: try (apply Hr in Hin; congruence).
  all: try (f_equal; f_equal; symmetry; eapply Hr; eassumption).
  all: try (cbn [failure_of] in Hf;
            match type of Hf with
            | match ?x with _ => _ end = _ => destruct x; congruence
            end).
Qed.

(** C5 (as amended).  When a check of [PreCreateCheck] fails (the
    login, a lookup, or the folder that is not found), [PreCreateCheck]
    returns the error of that check; the run makes only the login, the
    logout and lookups; and the driver struct is changed at most in
    two fields: an empty [Networks] may have become ["VM Network"],
    and [Network] may have been set to the first element of
    [Networks].  A driver struct whose [Networks] is not empty and
    whose [Network] is its first element is left as it was. *)
Theorem PreCreateCheck_on_failure (env : Backend) (w : World)
    (ev : Event) (err : error) :
  In ev (events_of (PreCreateCheck env) w) ->
  failure_of (drv w) ev = Some err ->
  fst (PreCreateCheck env w) = Ret (Some err) /\
  Forall is_lookup (events_of (PreCreateCheck env) w) /\
  defaults_networks w (snd (PreCreateCheck env w)) /\
  (nth_error (Networks (drv w)) 0 = Some (Network (drv w)) ->
   drv (snd (PreCreateCheck env w)) = drv w).
Proof.
  intros Hin Hf. split; [eapply PreCreateCheck_fails_fast; eassumption|].
  split.
  { destruct (PreCreateCheck_lookups env w) as (evs & Hl & HQ).
    unfold events_of. rewrite (since_app _ _ _ Hl). exact HQ. }
  pose proof (PreCreateCheck_defaults env w) as D.
  split; [exact D|]. intros H0.
  destruct D as (S & Hn & Hm). unfold same_but_networks in S.
  assert (En : Networks (drv (snd (PreCreateCheck env w))) = Networks (drv w)).
  { destruct Hn as [Hn|[Hn _]]; [exact Hn|]. rewrite Hn in H0. discriminate. }
  assert (Em : Network (drv (snd (PreCreateCheck env w))) = Network (drv w)).
  { destruct Hm as [Hm|Hm]; [exact Hm|]. rewrite En in Hm. congruence. }
  rewrite S, En, Em. destruct (drv w). reflexivity.
Qed.

Lemma PreCreateCheck_on_failure_witness :
  let env := scripted (fun _ c => match c with
                                  | NetworkOrDefault _ =>
                                      Some (Fault OtherFault "network not found")
                                  | _ => None
                                  end)
                      (always "poweredOff") (inr []) in
  fst (PreCreateCheck env dev) = Ret (Some (Fault OtherFault "network not found")) /\
  Forall is_lookup (events_of (PreCreateCheck env) dev).
Proof.
  intros env.
  destruct (PreCreateCheck_on_failure env dev
              (Did (NetworkOrDefault "VM Network")
                 (Some (Fault OtherFault "network not found")))
              (Fault OtherFault "network not found"))
    as (H1 & H2 & _).
  - vm_compute. in_list.
  - reflexivity.
  - split; assumption.
Defined.

(** C5 as stated fails.  With no network configured and a backend
    that does not find the default network, [PreCreateCheck] returns
    the error and leaves ["VM Network"] in [Networks]; with a host
    system that the backend does not find, it returns the error and
    leaves "VM Network" in [Network] as well. *)
Lemma PreCreateCheck_failure_writes_networks :
  let noNetwork := scripted (fun _ c => match c with
                                        | NetworkOrDefault _ =>
                                            Some (Fault OtherFault "network not found")
                                        | _ => None
                                        end)
                            (always "poweredOff") (inr []) in
  let noHost := scripted (fun _ c => match c with
                                     | HostSystemOrDefault _ =>
                                         Some (Fault OtherFault "host not found")
                                     | _ => None
                                     end)
                         (always "poweredOff") (inr []) in
  let esx := {| drv := onHost "esx1" (NewDriver "dev" "/store"); log := [] |} in
  (fst (PreCreateCheck noNetwork dev)
   = Ret (Some (Fault OtherFault "network not found")) /\
   Networks (drv dev) = [] /\
   Networks (drv (snd (PreCreateCheck noNetwork dev))) = ["VM Network"]) /\
  (fst (PreCreateCheck noHost esx) = Ret (Some (Fault OtherFault "host not found")) /\
   Networks (drv esx) = [] /\ Network (drv esx) = "" /\
   Networks (drv (snd (PreCreateCheck noHost esx))) = ["VM Network"] /\
   Network (drv (snd (PreCreateCheck noHost esx))) = "VM Network").
Proof. vm_compute. repeat split. Qed.

(** ** Daemon configuration *)



(** ** Sessions *)

Lemma open_sessions_app (a b : History) :
  open_sessions (a ++ b) = (open_sessions a + open_sessions b)%Z.
Proof. induction a as [|e a IH]; cbn; [reflexivity|]. fold (open_sessions (a ++ b)) (open_sessions a). lia. Qed.

#[export] Instance balanced_PreOrder : PreOrder balanced.
Proof.
  split.
  - intros w. exists []. split; [symmetry; apply app_nil_r|reflexivity].
  - intros a b c (e1 & H1 & S1) (e2 & H2 & S2). exists (e1 ++ e2). split.
    + rewrite H2, H1, app_assoc. reflexivity.
    + rewrite open_sessions_app. lia.
Qed.

Lemma balanced_step (e : Event) : session_delta e = 0%Z -> step balanced e.
Proof. intros H w. exists [e]. split; [reflexivity|]. cbn. lia. Qed.

Lemma balanced_writes (f : Driver -> Driver) : writes balanced f.
Proof. intros w. exists []. split; [symmetry; apply app_nil_r|reflexivity]. Qed.

(** The login and the deferred logout around a body that is balanced. *)
Lemma balanced_session {A} (env : Backend) (onError : error -> A) (body : M A) :
  respects balanced body ->
  respects balanced
    (err <- vsphereLogin env ;;
     match err with
     | Some e => ret (onError e)
     | None => deferLogout body
     end).
Proof.
  intros Hb w. cbv [bind vsphereLogin getD call ret deferLogout emit].
  cbn [fst snd drv log].
  destruct (on_call env (log w)
              (Login (IP (drv w)) (Port (drv w)) (Username (drv w)) (Password (drv w))))
    as [e|] eqn:E; cbn [fst snd drv log].
  - eexists. split; [reflexivity|reflexivity].
  - match goal with
    | |- context [body ?w1] =>
        destruct (Hb w1) as (evs & Hl & Hs); destruct (body w1) as [r w2]
    end.
    cbn [fst snd drv log] in *. rewrite Hl.
    eexists. split; [rewrite <- !app_assoc; reflexivity|].
    cbn [app open_sessions fold_right session_delta].
    fold (open_sessions (evs ++ [DidLogout])).
    rewrite open_sessions_app, Hs. reflexivity.
Qed.

Ltac balanced_steps :=
  repeat match goal with
         | |- PreOrder _ => typeclasses eauto
         | |- forall _, _ => intro
         | |- step balanced ?e =>
             apply balanced_step;
             first [ reflexivity
                   | match goal with
                     | |- session_delta (Did _ ?r) = _ => destruct r; reflexivity
                     end ]
         | |- writes balanced _ => apply balanced_writes
         | H : respects balanced ?m |- respects balanced ?m => exact H
         | |- respects _ (match ?x with _ => _ end) => destruct x
         | |- respects _ _ =>
             first [ apply balanced_session
                   | apply respects_ret
                   | apply respects_lift
                   | apply respects_panic
                   | apply respects_getD
                   | apply respects_bind
                   | apply respects_emit
                   | apply respects_modD
                   | apply respects_call
                   | apply respects_RetrieveOne
                   | apply respects_WaitForNetIP
                   | apply respects_Folders
                   | apply respects_FindFolder ]
         end.

Lemma GetState_balanced env : respects balanced (GetState env).
Proof. unfold GetState, GetState_body, enter. balanced_steps. Qed.

Lemma GetIP_balanced env N : respects balanced (GetIP env N).
Proof. unfold GetIP, enter. balanced_steps. Qed.

Lemma Stop_balanced env : respects balanced (Stop env).
Proof. unfold Stop, enter. balanced_steps. Qed.

Lemma Kill_balanced env : respects balanced (Kill env).
Proof. unfold Kill, enter. balanced_steps. Qed.

Lemma Start_balanced env N : respects balanced (Start env N).
Proof. unfold Start, enter. balanced_steps. Qed.

Lemma Restart_loop_balanced env n : respects balanced (Restart_loop env n).
Proof.
  induction n as [|n IH]; cbn [Restart_loop]; unfold Sleep; balanced_steps.
Qed.

Lemma Restart_balanced env N : respects balanced (Restart env N).
Proof.
  pose proof (Restart_loop_balanced env 60) as L.
  unfold Restart, enter. balanced_steps.
Qed.

Lemma Remove_balanced env : respects balanced (Remove env).
Proof. unfold Remove, Remove_afterStop, enter. balanced_steps. Qed.

Lemma checkNetworks_balanced env l : respects balanced (checkNetworks env l).
Proof. apply checkNetworks_respects; [typeclasses eauto|]. intros n r. balanced_steps. Qed.

Lemma PreCreateCheck_balanced env : respects balanced (PreCreateCheck env).
Proof.
  pose proof (checkNetworks_balanced env) as L.
  unfold PreCreateCheck, checkDatastoreAndRest, checkNetworksAndRest,
    checkHostAndPool, checkPool, enter.
  balanced_steps; apply L.
Qed.

Lemma GetURL_balanced env N : respects balanced (GetURL env N).
Proof. unfold GetURL. pose proof (GetIP_balanced env N). balanced_steps. Qed.

(** X1 (sessions).  [GetState], [GetIP], [GetURL], [GetSSHHostname],
    [PreCreateCheck], [Start], [Stop], [Kill], [Restart] and [Remove]
    each close every session they open: along any run, with any
    answers of the backend, the logins that succeed and the logouts
    are equal in number, whether the method returns a value, an error
    or panics.  ([Create] also logs in; it is not among them.) *)
Theorem sessions_are_closed (env : Backend) (N : net.Pkg) :
  respects balanced (GetState env) /\
  respects balanced (GetIP env N) /\
  respects balanced (GetURL env N) /\
  respects balanced (GetSSHHostname env N) /\
  respects balanced (PreCreateCheck env) /\
  respects balanced (Start env N) /\
  respects balanced (Stop env) /\
  respects balanced (Kill env) /\
  respects balanced (Restart env N) /\
  respects balanced (Remove env).
Proof.
  repeat apply conj.
  - apply GetState_balanced.
  - apply GetIP_balanced.
  - apply GetURL_balanced.
  - apply GetIP_balanced.
  - apply PreCreateCheck_balanced.
  - apply Start_balanced.
  - apply Stop_balanced.
  - apply Kill_balanced.
  - apply Restart_balanced.
  - apply Remove_balanced.
Qed.

Section Panics.

Variable cause : Event -> Prop.

Lemma poa_ret {A} (a : A) : panics_only_after cause (ret a).
Proof. intros w. exists []. cbn. rewrite app_nil_r. split; [reflexivity|discriminate]. Qed.

Lemma poa_getD : panics_only_after cause getD.
Proof. intros w. exists []. cbn. rewrite app_nil_r. split; [reflexivity|discriminate]. Qed.

Lemma poa_modD f : panics_only_after cause (modD f).
Proof. intros w. exists []. cbn. rewrite app_nil_r. split; [reflexivity|discriminate]. Qed.

Lemma poa_emit e : panics_only_after cause (emit e).
Proof. intros w. exists [e]. cbn. split; [reflexivity|discriminate]. Qed.

Lemma poa_bind {A B} (m : M A) (k : A -> M B) :
  panics_only_after cause m ->
  (forall a, panics_only_after cause (k a)) ->
  panics_only_after cause (bind m k).
Proof.
  intros Hm Hk w. unfold bind. destruct (Hm w) as (e1 & L1 & P1).
  destruct (m w) as [[a|msg] w1]; cbn [fst snd] in *.
  - destruct (Hk a w1) as (e2 & L2 & P2). exists (e1 ++ e2). split.
    + rewrite L2, L1, app_assoc. reflexivity.
    + intros msg H. apply Exists_app. right. eapply P2; exact H.
  - exists e1. split; [exact L1|]. intros msg' H. eapply P1. reflexivity.
Qed.

Lemma poa_deferLogout {A} (body : M A) :
  panics_only_after cause body -> panics_only_after cause (deferLogout body).
Proof.
  intros Hb w. unfold deferLogout. destruct (Hb w) as (e1 & L1 & P1).
  destruct (body w) as [r w1]; cbn [fst snd emit log] in *.
  exists (e1 ++ [DidLogout]). split.
  - rewrite L1, app_assoc. reflexivity.
  - intros msg H. apply Exists_app. left. eapply P1; exact H.
Qed.

Section Calls.

Variable env : Backend.

Lemma poa_call c : panics_only_after cause (call env c).
Proof. intros w. eexists. cbn. split; [reflexivity|discriminate]. Qed.

Lemma poa_RetrieveOne : panics_only_after cause (RetrieveOne env).
Proof. intros w. eexists. cbn. split; [reflexivity|discriminate]. Qed.

Lemma poa_Folders : panics_only_after cause (Folders env).
Proof. intros w. eexists. cbn. split; [reflexivity|discriminate]. Qed.

Lemma poa_FindFolder p : panics_only_after cause (FindFolder env p).
Proof. intros w. eexists. cbn. split; [reflexivity|discriminate]. Qed.

End Calls.

End Panics.

Lemma selectIP_Panic (N : net.Pkg) (m : MacIPs) (msg : string) :
  selectIP N m = Panic msg -> exists mac rest, m = (mac, []) :: rest.
Proof.
  destruct m as [|[mac ips] rest]; cbn [selectIP]; [discriminate|].
  rewrite lenGuard_true. destruct ips as [|ip ips]; cbn [nth_error].
  - intros _. eauto.
  - discriminate.
Qed.

(** The address wait and the selection that follows it in [GetIP]. *)
Lemma poa_select (env : Backend) (N : net.Pkg) (onError : error -> string * option error) :
  panics_only_after empty_first_entry
    (r <- WaitForNetIP env ;;
     match r with
     | inl e => ret (onError e)
     | inr configuredMacIPs => lift (selectIP N configuredMacIPs)
     end).
Proof.
  intros w. cbv [bind WaitForNetIP ret lift]. cbn [fst snd log].
  exists [DidWaitForNetIP (on_WaitForNetIP env (log w))].
  destruct (on_WaitForNetIP env (log w)) as [e|m]; cbn [fst snd log].
  - split; [reflexivity|discriminate].
  - split; [reflexivity|]. intros msg H.
    apply selectIP_Panic in H. destruct H as (mac & rest & ->).
    constructor. exact I.
Qed.

Ltac poa_steps :=
  repeat match goal with
         | |- forall _, _ => intro
         | H : panics_only_after ?c ?m |- panics_only_after ?c ?m => exact H
         | |- panics_only_after _ (match ?x with _ => _ end) => destruct x
         | |- panics_only_after _ _ =>
             first [ apply poa_select
                   | apply poa_ret
                   | apply poa_getD
                   | apply poa_bind
                   | apply poa_deferLogout
                   | apply poa_emit
                   | apply poa_modD
                   | apply poa_call
                   | apply poa_RetrieveOne
                   | apply poa_Folders
                   | apply poa_FindFolder ]
         end.

Lemma GetState_no_panic env : panics_only_after no_cause (GetState env).
Proof. unfold GetState, GetState_body, enter, vsphereLogin, fetchVM. poa_steps. Qed.

Lemma Stop_no_panic env : panics_only_after no_cause (Stop env).
Proof. unfold Stop, enter, vsphereLogin, fetchVM. poa_steps. Qed.

Lemma Kill_no_panic env : panics_only_after no_cause (Kill env).
Proof. unfold Kill, enter, vsphereLogin, fetchVM. poa_steps. Qed.

Lemma Remove_no_panic env : panics_only_after no_cause (Remove env).
Proof. unfold Remove, Remove_afterStop, enter. poa_steps. Qed.

Lemma poa_weaken {A} (c : Event -> Prop) (m : M A) :
  panics_only_after no_cause m -> panics_only_after c m.
Proof.
  intros H w. destruct (H w) as (evs & L & P). exists evs. split; [exact L|].
  intros msg E. apply P in E. apply Exists_exists in E. destruct E as (x & _ & []).
Qed.

Lemma GetIP_panics env N : panics_only_after empty_first_entry (GetIP env N).
Proof.
  pose proof (poa_weaken empty_first_entry _ (GetState_no_panic env)).
  unfold GetIP, enter, vsphereLogin, fetchVM. poa_steps.
Qed.

Lemma Start_panics env N : panics_only_after empty_first_entry (Start env N).
Proof.
  pose proof (poa_weaken empty_first_entry _ (GetState_no_panic env)).
  pose proof (GetIP_panics env N).
  unfold Start, enter, vsphereLogin, fetchVM. poa_steps.
Qed.

Lemma Restart_loop_no_panic env n : panics_only_after no_cause (Restart_loop env n).
Proof.
  pose proof (GetState_no_panic env).
  induction n as [|n IH]; cbn [Restart_loop]; unfold Sleep; poa_steps.
Qed.

Lemma Restart_panics env N : panics_only_after empty_first_entry (Restart env N).
Proof.
  pose proof (poa_weaken empty_first_entry _ (GetState_no_panic env)).
  pose proof (poa_weaken empty_first_entry _ (Stop_no_panic env)).
  pose proof (poa_weaken empty_first_entry _ (Kill_no_panic env)).
  pose proof (poa_weaken empty_first_entry _ (Restart_loop_no_panic env 60)).
  pose proof (Start_panics env N).
  unfold Restart, enter. poa_steps.
Qed.

Lemma GetURL_panics env N : panics_only_after empty_first_entry (GetURL env N).
Proof. pose proof (GetIP_panics env N). unfold GetURL. poa_steps. Qed.

Lemma poa_of_total {A} (c Q : Event -> Prop) (m : M A) :
  (forall w msg, fst (m w) <> Panic msg) ->
  respects (logs Q) m ->
  panics_only_after c m.
Proof.
  intros T L w. destruct (L w) as (evs & Hl & _). exists evs. split; [exact Hl|].
  intros msg H. destruct (T w msg H).
Qed.

Lemma checkNetworks_no_panic env l : panics_only_after no_cause (checkNetworks env l).
Proof. induction l as [|n l IH]; cbn [checkNetworks]; poa_steps. Qed.

Lemma checkHostAndPool_no_panic env : panics_only_after no_cause (checkHostAndPool env).
Proof. unfold checkHostAndPool, checkPool. poa_steps. Qed.

Lemma never_of_poa {A} (m : M A) :
  panics_only_after no_cause m -> never_panics m.
Proof.
  intros H w msg E. destruct (H w) as (evs & _ & P). apply P in E.
  apply Exists_exists in E. destruct E as (x & _ & []).
Qed.

(** The index [d.Networks[0]] is in range: the list was given the
    default network if it was empty, and the loop over it leaves the
    driver struct alone. *)
Lemma checkNetworksAndRest_total env :
  forall w msg, fst (checkNetworksAndRest env w) <> Panic msg.
Proof.
  intros w msg. unfold checkNetworksAndRest.
  unfold bind at 1. cbn [getD]. unfold bind at 1.
  set (w1 := snd ((if (length (Networks (drv w)) =? 0)%nat
                   then modD (set_Networks (Networks (drv w) ++ ["VM Network"]))
                   else ret tt) w)).
  assert (E1 : (if (length (Networks (drv w)) =? 0)%nat
                then modD (set_Networks (Networks (drv w) ++ ["VM Network"]))
                else ret tt) w = (Ret tt, w1)).
  { subst w1. destruct (length (Networks (drv w)) =? 0)%nat; reflexivity. }
  assert (N1 : Networks (drv w1) <> []).
  { subst w1. destruct (Networks (drv w)) as [|n l] eqn:E; cbn; [discriminate|].
    rewrite E. discriminate. }
  rewrite E1. clearbody w1. unfold bind at 1. cbn [getD]. unfold bind at 1.
  pose proof (checkNetworks_respects env same_drv (Networks (drv w1))
                (fun n r => same_drv_step _) w1) as H2.
  pose proof (never_of_poa _ (checkNetworks_no_panic env (Networks (drv w1))) w1) as T2.
  destruct (checkNetworks env (Networks (drv w1)) w1) as [[[e|]|m] w2];
    cbn [fst snd] in *; try discriminate; [|destruct (T2 m eq_refl)].
  unfold bind at 1. cbn [getD]. unfold same_drv in H2. rewrite H2.
  destruct (Networks (drv w1)) as [|n0 l]; [congruence|]. cbn [nth_error].
  unfold bind at 1. cbn [modD].
  apply (never_of_poa _ (checkHostAndPool_no_panic env)).
Qed.

Lemma checkNetworksAndRest_no_panic env :
  panics_only_after no_cause (checkNetworksAndRest env).
Proof.
  apply (poa_of_total no_cause (fun _ => True)); [apply checkNetworksAndRest_total|].
  pose proof (fun l => checkNetworks_respects env (logs (fun _ => True)) l
                         (fun n r => logs_step _ (Did (NetworkOrDefault n) r) I)) as L.
  unfold checkNetworksAndRest, checkHostAndPool, checkPool.
  respects_steps; try apply L; try apply logs_writes; apply logs_step; exact I.
Qed.

Lemma PreCreateCheck_no_panic env : panics_only_after no_cause (PreCreateCheck env).
Proof.
  pose proof (checkNetworksAndRest_no_panic env).
  unfold PreCreateCheck, checkDatastoreAndRest, enter, vsphereLogin. poa_steps.
Qed.

(** X2 (no panic).  [GetState], [Stop], [Kill], [Remove] and
    [PreCreateCheck] never panic, whatever the backend answers; in
    [PreCreateCheck] the index [d.Networks[0]] is always in range. *)
Theorem methods_without_address_never_panic (env : Backend) :
  never_panics (GetState env) /\
  never_panics (Stop env) /\
  never_panics (Kill env) /\
  never_panics (Remove env) /\
  never_panics (PreCreateCheck env).
Proof.
  repeat apply conj; apply never_of_poa.
  - apply GetState_no_panic.
  - apply Stop_no_panic.
  - apply Kill_no_panic.
  - apply Remove_no_panic.
  - apply PreCreateCheck_no_panic.
Qed.

(** X3 (origin of a panic).  A run of [GetIP], [GetURL],
    [GetSSHHostname], [Start] or [Restart] panics only after the
    backend has answered the address wait with a map whose first entry
    visited has an empty address list. *)
Theorem panic_only_after_empty_first_entry (env : Backend) (N : net.Pkg) :
  panics_only_after empty_first_entry (GetIP env N) /\
  panics_only_after empty_first_entry (GetURL env N) /\
  panics_only_after empty_first_entry (GetSSHHostname env N) /\
  panics_only_after empty_first_entry (Start env N) /\
  panics_only_after empty_first_entry (Restart env N).
Proof.
  repeat apply conj.
  - apply GetIP_panics.
  - apply GetURL_panics.
  - apply GetIP_panics.
  - apply Start_panics.
  - apply Restart_panics.
Qed.

Section Costs.

Variable measure : Event -> Z.

Lemma total_app (a b : History) :
  total measure (a ++ b) = (total measure a + total measure b)%Z.
Proof.
  induction a as [|e a IH]; cbn; [reflexivity|].
  fold (total measure (a ++ b)) (total measure a). lia.
Qed.

Lemma costs_ret {A} (a : A) n : (0 <= n)%Z -> costs measure n (ret a).
Proof. intros H w. exists []. cbn. rewrite app_nil_r. auto. Qed.

Lemma costs_bind {A B} (a n : Z) (m : M A) (k : A -> M B) :
  costs measure a m ->
  (a <= n)%Z ->
  (forall x, costs measure (n - a) (k x)) ->
  costs measure n (bind m k).
Proof.
  intros Hm Han Hk w. unfold bind. destruct (Hm w) as (e1 & L1 & C1).
  destruct (m w) as [[x|msg] w1]; cbn [fst snd] in *.
  - destruct (Hk x w1) as (e2 & L2 & C2). exists (e1 ++ e2). split.
    + rewrite L2, L1, app_assoc. reflexivity.
    + rewrite total_app. lia.
  - exists e1. split; [exact L1|lia].
Qed.

Lemma costs_le {A} (a n : Z) (m : M A) :
  costs measure a m -> (a <= n)%Z -> costs measure n m.
Proof.
  intros H Han w. destruct (H w) as (evs & L & C). exists evs. split; [exact L|lia].
Qed.

Lemma costs_emit (e : Event) : costs measure (measure e) (emit e).
Proof. intros w. exists [e]. cbn. split; [reflexivity|lia]. Qed.

(** A run whose events all measure nothing. *)
Lemma costs_free {A} (m : M A) :
  respects (logs (fun e => measure e = 0%Z)) m -> costs measure 0 m.
Proof.
  intros H w. destruct (H w) as (evs & L & Q). exists evs. split; [exact L|].
  clear L. induction Q as [|e evs He _ IH]; [cbn; lia|].
  change (measure e + total measure evs <= 0)%Z. lia.
Qed.

End Costs.


(** A run without a sleep and without an invocation of the method
    that is counted costs nothing. *)
Ltac free :=
  apply costs_free; respects_steps;
  try apply logs_writes;
  try (apply logs_step; reflexivity);
  try (apply logs_step; cbn; congruence).

Lemma GetState_sleeps env : costs slept 0 (GetState env).
Proof. unfold GetState, GetState_body, enter. free. Qed.

Lemma GetState_queries env : costs (invoked mGetState) 1 (GetState env).
Proof.
  unfold GetState. apply (costs_bind (invoked mGetState) 1); [apply costs_emit|lia|intros _].
  unfold GetState_body. free.
Qed.

Lemma GetIP_sleeps env N : costs slept 0 (GetIP env N).
Proof. unfold GetIP, GetState, GetState_body, enter. free. Qed.

Lemma GetIP_queries env N : costs (invoked mGetState) 1 (GetIP env N).
Proof.
  unfold GetIP.
  apply (costs_bind (invoked mGetState) 0); [apply (costs_emit (invoked mGetState) (Invoke mGetIP))|lia|intros _].
  apply (costs_bind (invoked mGetState) 1); [apply GetState_queries|lia|intros [st e]].
  free.
Qed.

Lemma costs_deferLogout {A} measure n (body : M A) :
  measure DidLogout = 0%Z ->
  costs measure n body -> costs measure n (deferLogout body).
Proof.
  intros H0 Hb w. unfold deferLogout. destruct (Hb w) as (evs & L & C).
  destruct (body w) as [r w1]; cbn [fst snd emit log] in *.
  exists (evs ++ [DidLogout]). split.
  - rewrite L, app_assoc. reflexivity.
  - rewrite total_app. cbn. lia.
Qed.

(** Spend the budget along a run: the known costs of the methods
    called are in the context, every other step is free. *)
Ltac budget :=
  repeat match goal with
         | |- forall _, _ => intro
         | |- costs _ _ (match ?x with _ => _ end) => destruct x
         | |- costs _ _ (ret _) => apply costs_ret; lia
         | |- costs _ _ (deferLogout _) => apply costs_deferLogout; [reflexivity|]
         | H : costs ?mu ?a ?m |- costs ?mu ?n (bind ?m _) =>
             apply (costs_bind mu a n); [exact H|lia|]
         | H : costs ?mu ?a ?m |- costs ?mu ?n ?m =>
             apply (costs_le mu a n); [exact H|lia]
         | |- costs ?mu ?n (bind ?m _) =>
             apply (costs_bind mu 0 n); [solve [free]|lia|]
         end.

Lemma Stop_sleeps env : costs slept 0 (Stop env).
Proof. unfold Stop, enter. free. Qed.

Lemma Stop_queries env : costs (invoked mGetState) 0 (Stop env).
Proof. unfold Stop, enter. free. Qed.

Lemma Kill_sleeps env : costs slept 0 (Kill env).
Proof. unfold Kill, enter. free. Qed.

Lemma Kill_queries env : costs (invoked mGetState) 0 (Kill env).
Proof. unfold Kill, enter. free. Qed.

Lemma Start_sleeps env N : costs slept 0 (Start env N).
Proof.
  pose proof (GetState_sleeps env). pose proof (GetIP_sleeps env N).
  unfold Start, enter. budget.
Qed.

Lemma Start_queries env N : costs (invoked mGetState) 2 (Start env N).
Proof.
  pose proof (GetState_queries env). pose proof (GetIP_queries env N).
  unfold Start, enter. budget.
Qed.

Lemma Restart_loop_sleeps env n :
  costs slept (2 * Z.of_nat n) (Restart_loop env n).
Proof.
  pose proof (GetState_sleeps env).
  induction n as [|n IH]; cbn [Restart_loop].
  - budget.
  - apply (costs_le slept (2 * Z.of_nat n)) with (n := (2 * Z.of_nat (S n) - 2)%Z) in IH; [|lia].
    unfold Sleep. budget.
    apply (costs_bind slept 2); [apply (costs_emit slept (Slept 2))|lia|intros _].
    apply (costs_le slept _ _ _ IH). lia.
Qed.

Lemma Restart_loop_queries env n :
  costs (invoked mGetState) (Z.of_nat n) (Restart_loop env n).
Proof.
  pose proof (GetState_queries env).
  induction n as [|n IH]; cbn [Restart_loop].
  - budget.
  - apply (costs_le (invoked mGetState) (Z.of_nat n)) with (n := (Z.of_nat (S n) - 1)%Z) in IH; [|lia].
    unfold Sleep. budget.
Qed.

Lemma Restart_sleeps env N : costs slept 120 (Restart env N).
Proof.
  pose proof (GetState_sleeps env). pose proof (Stop_sleeps env).
  pose proof (Kill_sleeps env). pose proof (Start_sleeps env N).
  pose proof (Restart_loop_sleeps env 60) as L. change (2 * Z.of_nat 60)%Z with 120%Z in L.
  unfold Restart, enter. budget.
Qed.

Lemma Restart_queries env N : costs (invoked mGetState) 63 (Restart env N).
Proof.
  pose proof (GetState_queries env). pose proof (Stop_queries env).
  pose proof (Kill_queries env). pose proof (Start_queries env N).
  pose proof (Restart_loop_queries env 60) as L. change (Z.of_nat 60) with 60%Z in L.
  unfold Restart, enter. budget.
Qed.

Lemma Restart_kills env N : costs (invoked mKill) 1 (Restart env N).
Proof.
  assert (costs (invoked mKill) 0 (GetState env))
    by (unfold GetState, GetState_body, enter; free).
  assert (costs (invoked mKill) 0 (Stop env)) by (unfold Stop, enter; free).
  assert (costs (invoked mKill) 1 (Kill env)).
  { unfold Kill. apply (costs_bind (invoked mKill) 1);
      [apply (costs_emit (invoked mKill) (Invoke mKill))|lia|intros _]. free. }
  assert (costs (invoked mKill) 0 (Start env N))
    by (unfold Start, GetIP, GetState, GetState_body, enter; free).
  assert (L : costs (invoked mKill) 0 (Restart_loop env 60)).
  { generalize 60%nat. intros n.
    induction n as [|n IH]; cbn [Restart_loop]; unfold Sleep; budget. }
  unfold Restart, enter. budget.
Qed.

Lemma Restart_starts env N : costs (invoked mStart) 1 (Restart env N).
Proof.
  assert (costs (invoked mStart) 0 (GetState env))
    by (unfold GetState, GetState_body, enter; free).
  assert (costs (invoked mStart) 0 (Stop env)) by (unfold Stop, enter; free).
  assert (costs (invoked mStart) 0 (Kill env)) by (unfold Kill, enter; free).
  assert (costs (invoked mStart) 1 (Start env N)).
  { unfold Start. apply (costs_bind (invoked mStart) 1);
      [apply (costs_emit (invoked mStart) (Invoke mStart))|lia|intros _].
    unfold GetIP, GetState, GetState_body, enter. free. }
  assert (L : costs (invoked mStart) 0 (Restart_loop env 60)).
  { generalize 60%nat. intros n.
    induction n as [|n IH]; cbn [Restart_loop]; unfold Sleep; budget. }
  unfold Restart, enter. budget.
Qed.

(** X4 (bounds of Restart).  Whatever the backend answers, one run of
    [Restart] sleeps at most 120 seconds in all, queries the state at
    most 63 times (60 times in the loop, once after it, twice in
    [Start]), and invokes [Kill] and [Start] at most once each. *)
Theorem Restart_is_bounded (env : Backend) (N : net.Pkg) :
  costs slept 120 (Restart env N) /\
  costs (invoked mGetState) 63 (Restart env N) /\
  costs (invoked mKill) 1 (Restart env N) /\
  costs (invoked mStart) 1 (Restart env N).
Proof.
  repeat apply conj.
  - apply Restart_sleeps.
  - apply Restart_queries.
  - apply Restart_kills.
  - apply Restart_starts.
Qed.


(** ** What the methods do, read off their logs *)

Ltac solve_In :=
  cbn [In app];
  repeat match goal with
         | |- _ \/ _ => first [left; reflexivity | right]
         end.

(** Drop the runs that the tests on the state rule out. *)
Ltac prune :=
  try match goal with
      | H : negb (state.eqb _ _) = _ |- _ => solve [cbn in H; discriminate H]
      | H : state.eqb _ _ = _ |- _ => solve [cbn in H; discriminate H]
      end.

(** The cases of a membership in a list that is written out. *)
Ltac cases_In H :=
  cbn [In app] in H;
  repeat match type of H with
         | _ \/ _ => destruct H as [H|H]; try discriminate H
         end;
  try contradiction.

Ltac refute_In :=
  let H := fresh in
  intros H; cases_In H.

(** X5 (Stop).  [Stop] returns nil exactly on the runs in which the
    guest shutdown was requested and accepted, and then the stored
    address is cleared; a run that returns an error returns the error
    of a backend call and leaves the driver struct alone.  [Stop]
    never requests a power-off. *)
Theorem Stop_outcome (env : Backend) (w : World) :
  let w' := snd (Stop env w) in
  let evs := events_of (Stop env) w in
  match fst (Stop env w) with
  | Ret None =>
      drv w' = set_IPAddress "" (drv w) /\ In (Did ShutdownGuest None) evs
  | Ret (Some e) =>
      drv w' = drv w /\ (exists c, In (Did c (Some e)) evs) /\
      ~ In (Did ShutdownGuest None) evs
  | Panic _ => False
  end /\
  forall r, ~ In (Did PowerOff r) evs.
Proof.
  unfold events_of, Stop. unfold_monad. split_run; log_events; cbn zeta.
  all: split; [|intros r; refute_In].
  all: repeat split; try solve [solve_In]; try solve [refute_In];
       try (eexists; solve [solve_In]).
Qed.

(** X6 (Kill).  [Kill] returns nil exactly on the runs in which the
    power-off was requested and the wait for it succeeded, and then the
    stored address is cleared; a run that returns an error returns the
    error of a backend call and leaves the driver struct alone.  [Kill]
    never asks the guest to shut down. *)
Theorem Kill_outcome (env : Backend) (w : World) :
  let w' := snd (Kill env w) in
  let evs := events_of (Kill env) w in
  match fst (Kill env w) with
  | Ret None =>
      drv w' = set_IPAddress "" (drv w) /\
      In (Did PowerOff None) evs /\ In (Did WaitPowerOff None) evs
  | Ret (Some e) =>
      drv w' = drv w /\ (exists c, In (Did c (Some e)) evs) /\
      ~ In (Did WaitPowerOff None) evs
  | Panic _ => False
  end /\
  forall r, ~ In (Did ShutdownGuest r) evs.
Proof.
  unfold events_of, Kill. unfold_monad. split_run; log_events; cbn zeta.
  all: split; [|intros r; refute_In].
  all: repeat split; try solve [solve_In]; try solve [refute_In];
       try (eexists; solve [solve_In]).
Qed.

(** X7 (GetState).  [GetState] leaves the driver struct alone and
    logs only the events of a query.  It reports [Running] only for a
    retrieved power state that contains "poweredOn", [Stopped] only for
    one that contains "poweredOff" and not "poweredOn"; it reports
    [None] without an error when the retrieval failed or the power
    state contains neither, and [None] with an error only when a call
    before the retrieval failed with that error.  It reports no other
    state. *)
Theorem GetState_outcome (env : Backend) (w : World) :
  let w' := snd (GetState env w) in
  let evs := events_of (GetState env) w in
  drv w' = drv w /\
  Forall is_query_event evs /\
  match fst (GetState env w) with
  | Ret (state.Running, None) =>
      exists ps, In (DidRetrieveOne (inr ps)) evs /\ Contains ps "poweredOn" = true
  | Ret (state.Stopped, None) =>
      exists ps, In (DidRetrieveOne (inr ps)) evs /\
                 Contains ps "poweredOn" = false /\ Contains ps "poweredOff" = true
  | Ret (state.None, None) =>
      (exists e, In (DidRetrieveOne (inl e)) evs) \/
      (exists ps, In (DidRetrieveOne (inr ps)) evs /\
                  Contains ps "poweredOn" = false /\ Contains ps "poweredOff" = false)
  | Ret (state.None, Some e) =>
      (exists c, In (Did c (Some e)) evs) /\ forall r, ~ In (DidRetrieveOne r) evs
  | _ => False
  end.
Proof.
  unfold events_of, GetState, GetState_body. unfold_monad.
  split_run; log_events; cbn zeta.
  all: split; [reflexivity|]; split; [repeat constructor|].
  all: try (split; [eexists; solve [solve_In]|intros r; refute_In]).
  all: try (eexists; split; [solve [solve_In]|auto]).
  all: try (left; eexists; solve [solve_In]).
  all: try (right; eexists; split; [solve [solve_In]|auto]).
Qed.

(** ** Start *)

Lemma Start_unless_Stopped (env : Backend) (N : net.Pkg) (w w' : World)
    (st : state.State) (err : option error) :
  GetState env (snd (enter mStart w)) = (Ret (st, err), w') ->
  st <> state.Stopped ->
  Start env N w = (Ret err, w').
Proof.
  intros H Hst. unfold Start, bind at 1. cbn [enter emit fst snd] in *.
  unfold bind. rewrite H. destruct err as [e|]; [reflexivity|].
  destruct st; try reflexivity. congruence.
Qed.

Lemma GetState_failed_retrieval (env : Backend) (w : World) (e : error) :
  In (DidRetrieveOne (inl e)) (events_of (GetState env) w) ->
  GetState env w = (Ret (state.None, None), snd (GetState env w)).
Proof.
  unfold events_of, GetState, GetState_body. unfold_monad.
  split_run; log_events; try (intros _; reflexivity); absurd_In.
Qed.

Lemma GetState_queries_only (env : Backend) :
  respects (logs is_query_event) (GetState env).
Proof.
  unfold GetState, GetState_body, enter, vsphereLogin, fetchVM.
  respects_steps; apply logs_step; exact I.
Qed.

Lemma GetState_same_drv (env : Backend) : respects same_drv (GetState env).
Proof.
  unfold GetState, GetState_body, enter, vsphereLogin, fetchVM.
  respects_steps; apply same_drv_step.
Qed.

Lemma query_events_no_power_on (evs : History) :
  Forall is_query_event evs -> existsb is_power_on evs = false.
Proof.
  induction 1 as [|x l Hx _ IH]; [reflexivity|].
  cbn [existsb]. rewrite IH.
  destruct x as [[]|[] ?| | | | | |]; cbn in *; try reflexivity; contradiction.
Qed.

(** X8 (Start after a failed retrieval).  When the retrieval of the
    power state fails in the state query of [Start], [Start] returns
    nil: it requests no power-on and leaves the driver struct alone,
    although nothing is known about the machine. *)
Theorem Start_after_failed_retrieval (env : Backend) (N : net.Pkg) (w : World) (e : error) :
  In (DidRetrieveOne (inl e)) (events_of (GetState env) (snd (enter mStart w))) ->
  fst (Start env N w) = Ret None /\
  drv (snd (Start env N w)) = drv w /\
  existsb is_power_on (events_of (Start env N) w) = false.
Proof.
  intros H. apply GetState_failed_retrieval in H.
  pose proof (Start_unless_Stopped env N w _ _ _ H ltac:(discriminate)) as HS.
  rewrite HS. cbn [fst snd]. split; [reflexivity|].
  split; [exact (GetState_same_drv env (snd (enter mStart w)))|].
  unfold events_of. rewrite HS. cbn [snd].
  destruct (GetState_queries_only env (snd (enter mStart w))) as (evs & Hl & HQ).
  cbn [enter emit snd log] in Hl |- *. rewrite <- app_assoc in Hl.
  rewrite (since_app _ _ _ Hl). cbn [app existsb is_power_on].
  apply query_events_no_power_on. exact HQ.
Qed.

Lemma Start_after_failed_retrieval_witness :
  let env := scripted noFailure (fun _ => inl (Fault OtherFault "property collector"))
                      (inr []) in
  fst (Start env dotted.pkg dev) = Ret None /\
  drv (snd (Start env dotted.pkg dev)) = drv dev /\
  existsb is_power_on (events_of (Start env dotted.pkg) dev) = false.
Proof.
  intros env.
  apply (Start_after_failed_retrieval env dotted.pkg dev
           (Fault OtherFault "property collector")).
  vm_compute. in_list.
Defined.

Lemma pickPreferred_In (N : net.Pkg) (first : string) (ips : list string) :
  pickPreferred N first ips = first \/ In (pickPreferred N first ips) ips.
Proof.
  induction ips as [|ip rest IH]; cbn [pickPreferred]; [left; reflexivity|].
  destruct (qualifies N ip); [right; left; reflexivity|].
  destruct IH as [IH|IH]; [left; exact IH|right; right; exact IH].
Qed.

Lemma selectIP_Ret (N : net.Pkg) (m : MacIPs) (ip : string) (err : option error) :
  selectIP N m = Ret (ip, err) ->
  match err with
  | None => exists mac ips rest, m = (mac, ips) :: rest /\ In ip ips
  | Some e => m = [] /\ ip = "" /\ e = ErrNoIP
  end.
Proof.
  destruct m as [|[mac ips] rest]; cbn [selectIP].
  - intros H. injection H as <- <-. auto.
  - rewrite lenGuard_true. destruct ips as [|first more]; cbn [nth_error]; [discriminate|].
    intros H. injection H as <- <-. exists mac, (first :: more), rest.
    split; [reflexivity|].
    destruct (pickPreferred_In N first (first :: more)) as [E|E]; [|exact E].
    left. symmetry. exact E.
Qed.

Lemma GetIP_run (env : Backend) (N : net.Pkg) (w : World) :
  exists evs,
    log (snd (GetIP env N w)) = log w ++ evs /\
    drv (snd (GetIP env N w)) = drv w /\
    match fst (GetIP env N w) with
    | Ret (ip, None) =>
        exists mac ips rest,
          In (DidWaitForNetIP (inr ((mac, ips) :: rest))) evs /\ In ip ips
    | Ret (ip, Some e) => ip = ""
    | Panic _ => True
    end.
Proof.
  unfold GetIP, GetState, GetState_body. unfold_monad.
  split_run; cbn [fst snd drv log].
  all: eexists; split; [rewrite <- !app_assoc; reflexivity|]; split; [reflexivity|].
  all: try reflexivity; try exact I.
  all: match goal with
       | H : selectIP _ _ = Ret (_, _) |- _ =>
           apply selectIP_Ret in H; cbn beta iota in H;
           first [ destruct H as (_ & -> & _); reflexivity
                 | let mac := fresh "mac" in
                   let ips := fresh "ips" in
                   let rest := fresh "rest" in
                   let Hin := fresh "Hin" in
                   destruct H as (mac & ips & rest & -> & Hin);
                   exists mac, ips, rest; split; [solve_In|exact Hin] ]
       end.
Qed.

(** Run the nested [GetIP] of [Start] by what [GetIP_run] says of it. *)
Ltac run_nested_GetIP :=
  repeat match goal with
         | H : GetIP ?b ?n ?w1 = (?r, ?w2) |- _ =>
             let evs := fresh "evs" in
             let Hl := fresh "Hl" in
             let Hd := fresh "Hd" in
             let Hr := fresh "Hr" in
             destruct (GetIP_run b n w1) as (evs & Hl & Hd & Hr);
             rewrite H in Hl, Hd, Hr; cbn [fst snd drv log] in Hl, Hd, Hr; clear H;
             try rewrite Hl; try rewrite Hd
         end.

(** X9 (Start after the power-on).  Once the wait for the power-on
    has succeeded, [Start] stores whatever [GetIP] returns: on success
    an address that the backend reported for the first entry of the
    address map, and the empty string when [GetIP] fails, so that an
    address stored before is lost with the error. *)
Theorem Start_after_power_on (env : Backend) (N : net.Pkg) (w : World) :
  let w' := snd (Start env N w) in
  let evs := events_of (Start env N) w in
  In (Did WaitPowerOn None) evs ->
  match fst (Start env N w) with
  | Ret None =>
      exists mac ips rest,
        In (DidWaitForNetIP (inr ((mac, ips) :: rest))) evs /\
        In (IPAddress (Base (drv w'))) ips /\
        drv w' = set_IPAddress (IPAddress (Base (drv w'))) (drv w)
  | Ret (Some e) => drv w' = set_IPAddress "" (drv w)
  | Panic _ => drv w' = drv w
  end.
Proof.
  unfold events_of, Start, GetState, GetState_body. unfold_monad.
  split_run.
  all: subst.
  all: run_nested_GetIP.
  all: log_events; cbn zeta; try solve [refute_In]; intros _.
  all: try reflexivity.
  all: try (subst; reflexivity).
  all: destruct Hr as (mac & ips & rest & Hin & Hip); exists mac, ips, rest.
  all: split; [|split; [exact Hip|reflexivity]].
  all: cbn [In app]; repeat match goal with |- _ \/ _ => right end.
  all: apply in_or_app; left; exact Hin.
Qed.

Lemma Start_after_power_on_witness :
  let env := scripted noFailure offUntilPoweredOn
                      (inr [("00:50:56:01:02:03", ["10.0.0.5"])]) in
  let w' := snd (Start env dotted.pkg dev) in
  let evs := events_of (Start env dotted.pkg) dev in
  In (Did WaitPowerOn None) evs /\
  fst (Start env dotted.pkg dev) = Ret None /\
  IPAddress (Base (drv w')) = "10.0.0.5" /\
  exists mac ips rest,
    In (DidWaitForNetIP (inr ((mac, ips) :: rest))) evs /\
    In (IPAddress (Base (drv w'))) ips /\
    drv w' = set_IPAddress (IPAddress (Base (drv w'))) (drv dev).
Proof.
  intros env w' evs.
  assert (H : In (Did WaitPowerOn None) evs) by (vm_compute; in_list).
  assert (E : fst (Start env dotted.pkg dev) = Ret None) by (vm_compute; reflexivity).
  split; [exact H|]. split; [exact E|]. split; [vm_compute; reflexivity|].
  pose proof (Start_after_power_on env dotted.pkg dev H) as R.
  cbn zeta in R. rewrite E in R. exact R.
Defined.

(** X10 (what makes Start power on).  [Start] requests a power-on
    only when its state query reported [Stopped] without an error, and
    only after a second session was opened and the datacenter and the
    machine were found in it: up to the first power-on request the log
    of the run is the invocation, the state query, and then the
    successful login, datacenter lookup and machine lookup. *)
Theorem Start_power_on_cause (env : Backend) (N : net.Pkg) (w : World)
    (r : option error) :
  let evs := events_of (Start env N) w in
  let d := drv w in
  let vmPath := if String.eqb (Folder d) "" then MachineName (Base d)
                else (Folder d ++ "/" ++ MachineName (Base d))%string in
  In (Did PowerOn r) evs ->
  fst (GetState env (snd (enter mStart w))) = Ret (state.Stopped, None) /\
  exists ps r' post,
    Contains ps "poweredOn" = false /\ Contains ps "poweredOff" = true /\
    evs = Invoke mStart :: GetState_calls d (inr ps) ++
          [Did (Login (IP d) (Port d) (Username d) (Password d)) None;
           Did (DatacenterOrDefault (Datacenter d)) None;
           Did (VirtualMachine vmPath) None;
           Did PowerOn r'] ++ post.
Proof.
  cbn zeta. unfold GetState_calls.
  unfold events_of, Start, GetState, GetState_body. unfold_monad.
  split_run.
  all: subst.
  all: try match goal with
           | H : false = true |- _ => discriminate H
           | H : true = false |- _ => discriminate H
           end.
  all: run_nested_GetIP.
  all: log_events; cbn zeta; try solve [refute_In]; intros _.
  all: split; [reflexivity|].
  all: eexists; eexists; eexists; split; [eassumption|]; split; [eassumption|].
  all: cbn [app]; rewrite <- ?app_assoc; cbn [app]; reflexivity.
Qed.

Lemma Start_power_on_cause_witness :
  let env := scripted noFailure offUntilPoweredOn
                      (inr [("00:50:56:01:02:03", ["10.0.0.5"])]) in
  let evs := events_of (Start env dotted.pkg) dev in
  let d := drv dev in
  In (Did PowerOn None) evs /\
  fst (GetState env (snd (enter mStart dev))) = Ret (state.Stopped, None) /\
  exists ps r' post,
    Contains ps "poweredOn" = false /\ Contains ps "poweredOff" = true /\
    evs = Invoke mStart :: GetState_calls d (inr ps) ++
          [Did (Login (IP d) (Port d) (Username d) (Password d)) None;
           Did (DatacenterOrDefault (Datacenter d)) None;
           Did (VirtualMachine "dev") None;
           Did PowerOn r'] ++ post.
Proof.
  intros env evs d.
  assert (H : In (Did PowerOn None) evs) by (vm_compute; in_list).
  split; [exact H|].
  exact (Start_power_on_cause env dotted.pkg dev None H).
Defined.

(** ** GetIP, from the result to its cause *)

Lemma pickPreferred_cases (N : net.Pkg) (first : string) (ips : list string) :
  (In (pickPreferred N first ips) ips /\ qualifies N (pickPreferred N first ips) = true) \/
  (pickPreferred N first ips = first /\ Forall (fun x => qualifies N x = false) ips).
Proof.
  induction ips as [|ip rest IH]; cbn [pickPreferred].
  - right. split; [reflexivity|constructor].
  - destruct (qualifies N ip) eqn:Q.
    + left. split; [left; reflexivity|exact Q].
    + destruct IH as [[IH1 IH2]|[IH1 IH2]].
      * left. split; [right; exact IH1|exact IH2].
      * right. split; [exact IH1|constructor; assumption].
Qed.

Lemma selectIP_choice (N : net.Pkg) (m : MacIPs) (ip : string) :
  selectIP N m = Ret (ip, None) ->
  exists mac ips rest,
    m = (mac, ips) :: rest /\ In ip ips /\
    (qualifies N ip = true \/
     nth_error ips 0 = Some ip /\ Forall (fun x => qualifies N x = false) ips).
Proof.
  destruct m as [|[mac ips] rest]; cbn [selectIP]; [discriminate|].
  rewrite lenGuard_true. destruct ips as [|first more]; cbn [nth_error]; [discriminate|].
  intros H. injection H as <-. exists mac, (first :: more), rest.
  split; [reflexivity|].
  destruct (pickPreferred_cases N first (first :: more)) as [[H1 H2]|[H1 H2]].
  - split; [exact H1|left; exact H2].
  - split; [left; symmetry; exact H1|].
    right. split; [f_equal; symmetry; exact H1|exact H2].
Qed.

(** X11 (the address GetIP returns).  An address that [GetIP]
    returns without an error was reported by the backend in the first
    entry visited of the address map; it is a global unicast IPv4
    address other than the Docker bridge address, or else it is the
    first address of that entry and no address of the entry is of that
    kind.  (So the result may be a loopback or link-local address, or
    the empty string.) *)
Theorem GetIP_returns_reported_address (env : Backend) (N : net.Pkg) (w : World)
    (ip : string) :
  fst (GetIP env N w) = Ret (ip, None) ->
  exists mac ips rest,
    In (DidWaitForNetIP (inr ((mac, ips) :: rest))) (events_of (GetIP env N) w) /\
    In ip ips /\
    (qualifies N ip = true \/
     nth_error ips 0 = Some ip /\ Forall (fun x => qualifies N x = false) ips).
Proof.
  unfold events_of, GetIP, GetState, GetState_body. unfold_monad.
  split_run; log_events; intros H; try discriminate H.
  all: apply selectIP_choice in H; destruct H as (mac & ips & rest & -> & Hin & Hq).
  all: exists mac, ips, rest; split; [solve_In|split; [exact Hin|exact Hq]].
Qed.

Lemma GetIP_returns_reported_address_witness :
  let env := scripted noFailure (always "poweredOn")
                      (inr [("00:50:56:01:02:03", ["127.0.0.1"; "169.254.7.7"])]) in
  fst (GetIP env dotted.pkg dev) = Ret ("127.0.0.1", None) /\
  exists mac ips rest,
    In (DidWaitForNetIP (inr ((mac, ips) :: rest))) (events_of (GetIP env dotted.pkg) dev) /\
    In "127.0.0.1" ips /\
    (qualifies dotted.pkg "127.0.0.1" = true \/
     nth_error ips 0 = Some "127.0.0.1" /\
     Forall (fun x => qualifies dotted.pkg x = false) ips).
Proof.
  intros env.
  assert (E : fst (GetIP env dotted.pkg dev) = Ret ("127.0.0.1", None))
    by (vm_compute; reflexivity).
  split; [exact E|].
  exact (GetIP_returns_reported_address env dotted.pkg dev "127.0.0.1" E).
Defined.

(** X12 (the errors of GetIP).  [GetIP] never writes the driver
    struct, and with an error it returns the empty address.  When the
    address wait fails its error is returned, and when the address map
    is empty the result is [ErrNoIP]. *)
Theorem GetIP_error_results (env : Backend) (N : net.Pkg) (w : World) :
  let evs := events_of (GetIP env N) w in
  (In (DidWaitForNetIP (inr [])) evs -> fst (GetIP env N w) = Ret ("", Some ErrNoIP)) /\
  (forall e, In (DidWaitForNetIP (inl e)) evs -> fst (GetIP env N w) = Ret ("", Some e)) /\
  (forall ip e, fst (GetIP env N w) = Ret (ip, Some e) -> ip = "") /\
  drv (snd (GetIP env N w)) = drv w.
Proof.
  unfold events_of, GetIP, GetState, GetState_body. unfold_monad.
  split_run; prune; log_events; cbn zeta.
  all: split; [|split; [|split; [|reflexivity]]].
  all: try solve [refute_In]; try (intros e'; solve [refute_In]).
  all: try (intros ip' e' H; injection H as <- _; reflexivity).
  all: try (intros _; reflexivity).
  all: try (intros e' H; cases_In H; injection H as <-; reflexivity).
  all: try (intros ip' e' H; apply selectIP_Ret in H; tauto).
  all: intros H; cases_In H.
  all: injection H as H; subst; reflexivity.
Qed.

Lemma GetIP_error_results_witness :
  let env := scripted noFailure (always "poweredOn") (inr []) in
  In (DidWaitForNetIP (inr [])) (events_of (GetIP env dotted.pkg) dev) /\
  fst (GetIP env dotted.pkg dev) = Ret ("", Some ErrNoIP).
Proof.
  intros env.
  assert (H : In (DidWaitForNetIP (inr [])) (events_of (GetIP env dotted.pkg) dev))
    by (vm_compute; in_list).
  split; [exact H|].
  exact (proj1 (GetIP_error_results env dotted.pkg dev) H).
Defined.

(** ** Remove, from its log *)

Lemma Remove_afterStop_outcome (env : Backend) (w : World) :
  let evs := events_of (Remove_afterStop env) w in
  drv (snd (Remove_afterStop env w)) = drv w /\
  (fst (Remove_afterStop env w) = Ret None ->
   (exists e, In (Did WaitDelete (Some e)) evs /\ IsFileNotFound e = true) \/
   In (Did WaitDestroy None) evs) /\
  (forall r, In (Did Destroy r) evs ->
             In (Did (DeleteDatastoreFile (isoPath (drv w))) None) evs) /\
  (forall e, In (Did WaitDelete (Some e)) evs -> IsFileNotFound e = false ->
             In (Did WaitDestroy None) evs ->
             fst (Remove_afterStop env w) = Ret None) /\
  (forall msg, fst (Remove_afterStop env w) <> Panic msg).
Proof.
  unfold events_of, Remove_afterStop. unfold_monad.
  split_run; log_events; cbn zeta.
  all: split; [reflexivity|].
  all: split; [first [ intros H; discriminate H
                     | intros _; right; solve [solve_In]
                     | intros _; left; eexists; split; [solve [solve_In]|eassumption] ]|].
  all: split; [intros r; first [solve [refute_In] | intros _; solve [solve_In]]|].
  all: split; [|intros msg; discriminate].
  all: intros e'; first [ solve [refute_In] | idtac ].
  all: intros H1 H2 H3; try reflexivity.
  all: cbn [In app] in H1, H3;
       repeat (destruct H1 as [H1|H1]; try discriminate H1); try contradiction;
       repeat (destruct H3 as [H3|H3]; try discriminate H3); try contradiction.
  all: try (injection H1 as <-; congruence).
Qed.

Lemma GetState_before_removal (env : Backend) :
  respects (logs before_removal) (GetState env).
Proof.
  unfold GetState, GetState_body, enter, vsphereLogin, fetchVM.
  respects_steps; apply logs_step; exact I.
Qed.

Lemma Kill_before_removal (env : Backend) :
  respects (logs before_removal) (Kill env).
Proof.
  unfold Kill, enter, vsphereLogin, fetchVM.
  respects_steps; try apply logs_writes; apply logs_step; exact I.
Qed.

Lemma Kill_isoPath (env : Backend) (w : World) :
  isoPath (drv (snd (Kill env w))) = isoPath (drv w).
Proof. unfold Kill. unfold_monad. split_run; reflexivity. Qed.

(** [Remove] up to the login: it returns an error, or goes on as
    [Remove_afterStop] for the same machine. *)
Lemma Remove_reaches (env : Backend) (w : World) :
  exists pre w1,
    log w1 = log w ++ pre /\ Forall before_removal pre /\
    isoPath (drv w1) = isoPath (drv w) /\
    (Remove env w = Remove_afterStop env w1 \/
     exists e, Remove env w = (Ret (Some e), w1)).
Proof.
  pose proof (eq_refl (Remove env w)) as ER. unfold Remove at 2 in ER.
  unfold bind at 1 in ER. cbn [enter emit] in ER.
  set (w0 := {| drv := drv w; log := log w ++ [Invoke mRemove] |}) in ER.
  assert (L0 : logs before_removal w w0).
  { exists [Invoke mRemove]. split; [reflexivity|repeat constructor]. }
  unfold bind at 1 in ER.
  pose proof (GetState_before_removal env w0) as L1.
  pose proof (GetState_same_drv env w0) as D1.
  destruct (GetState env w0) as [[[st [e|]]|msg] w1] eqn:G; cbn [snd] in *.
  - destruct (transitivity L0 L1) as (pre & Hl & HQ).
    exists pre, w1. rewrite D1. repeat split; auto. right. eauto.
  - assert (L01 := transitivity L0 L1).
    destruct (state.eqb st state.Running).
    + unfold bind at 1 in ER.
      pose proof (Kill_before_removal env w1) as L2.
      pose proof (Kill_isoPath env w1) as K.
      pose proof (never_of_poa _ (Kill_no_panic env) w1) as T.
      destruct (Kill env w1) as [[[e|]|msg] w2] eqn:EK; cbn [fst snd] in *.
      * destruct (transitivity L01 L2) as (pre & Hl & HQ).
        exists pre, w2. rewrite K, D1.
        repeat split; auto. right. eauto.
      * destruct (transitivity L01 L2) as (pre & Hl & HQ).
        exists pre, w2. rewrite K, D1.
        repeat split; auto.
      * destruct (T msg eq_refl).
    + destruct L01 as (pre & Hl & HQ). exists pre, w1. rewrite D1.
      repeat split; auto.
  - exfalso. revert G. unfold GetState, GetState_body. unfold_monad.
    split_run; discriminate.
Qed.

Lemma Remove_afterStop_grows (env : Backend) :
  respects (logs (fun _ => True)) (Remove_afterStop env).
Proof.
  unfold Remove_afterStop, vsphereLogin, fetchVM.
  respects_steps; apply logs_step; exact I.
Qed.

(** The events of [Remove]: those before the removal, then those of
    [Remove_afterStop] if the run gets there. *)
Lemma Remove_events (env : Backend) (w : World) :
  exists pre,
    Forall before_removal pre /\
    ((exists e, fst (Remove env w) = Ret (Some e) /\ events_of (Remove env) w = pre) \/
     exists w1,
       isoPath (drv w1) = isoPath (drv w) /\
       fst (Remove env w) = fst (Remove_afterStop env w1) /\
       events_of (Remove env) w = pre ++ events_of (Remove_afterStop env) w1).
Proof.
  destruct (Remove_reaches env w) as (pre & w1 & Hl & HQ & Hp & [HR|[e HR]]).
  - exists pre. split; [exact HQ|]. right. exists w1. rewrite HR.
    split; [exact Hp|]. split; [reflexivity|].
    destruct (Remove_afterStop_grows env w1) as (evs & Hl2 & _).
    unfold events_of. rewrite HR.
    rewrite (since_app w1 _ evs Hl2).
    apply since_app. rewrite Hl2, Hl, app_assoc. reflexivity.
  - exists pre. split; [exact HQ|]. left. exists e. rewrite HR. split; [reflexivity|].
    unfold events_of. rewrite HR. apply since_app. exact Hl.
Qed.

Lemma before_removal_not_In (pre : History) (e : Event) :
  Forall before_removal pre -> ~ before_removal e -> ~ In e pre.
Proof.
  intros H He Hin. rewrite Forall_forall in H. apply He, H, Hin.
Qed.

Ltac drop_pre H HQ :=
  apply in_app_or in H; destruct H as [H|H];
  [exfalso; revert H; apply (before_removal_not_In _ _ HQ); intros []|].

(** X13 (Remove).  [Remove] never panics.  It returns nil only
    after the wait for the deletion failed with a file-not-found fault
    or after the wait for the destruction succeeded, and it asks for the
    destruction of the machine only after the deletion of
    [<machine name>/boot2docker.iso] was accepted. *)
Theorem Remove_outcome (env : Backend) (w : World) :
  let evs := events_of (Remove env) w in
  (fst (Remove env w) = Ret None ->
   (exists e, In (Did WaitDelete (Some e)) evs /\ IsFileNotFound e = true) \/
   In (Did WaitDestroy None) evs) /\
  (forall r, In (Did Destroy r) evs ->
             In (Did (DeleteDatastoreFile (isoPath (drv w))) None) evs) /\
  (forall msg, fst (Remove env w) <> Panic msg).
Proof.
  cbn zeta. destruct (Remove_events env w) as (pre & HQ & [(e & HR & HE)|(w1 & Hp & HR & HE)]).
  - rewrite HR, HE. split; [discriminate|]. split; [|discriminate].
    intros r H. exfalso. revert H. apply (before_removal_not_In _ _ HQ). intros [].
  - rewrite HR, HE.
    destruct (Remove_afterStop_outcome env w1) as (_ & A & B & _ & P).
    split; [|split; [|exact P]].
    + intros H. destruct (A H) as [(e & H1 & H2)|H1].
      * left. exists e. split; [apply in_or_app; right; exact H1|exact H2].
      * right. apply in_or_app. right. exact H1.
    + intros r H. drop_pre H HQ. apply in_or_app. right.
      rewrite <- Hp. eapply B. exact H.
Qed.

Lemma Remove_outcome_witness :
  let env := scripted noFailure (always "poweredOn") (inr []) in
  let evs := events_of (Remove env) dev in
  fst (Remove env dev) = Ret None /\
  ((exists e, In (Did WaitDelete (Some e)) evs /\ IsFileNotFound e = true) \/
   In (Did WaitDestroy None) evs) /\
  In (Did (DeleteDatastoreFile "dev/boot2docker.iso") None) evs.
Proof.
  intros env evs.
  assert (H : fst (Remove env dev) = Ret None) by (vm_compute; reflexivity).
  destruct (Remove_outcome env dev) as (A & B & _).
  split; [exact H|]. split; [exact (A H)|].
  apply (B None). vm_compute. in_list.
Defined.

(** X14 (a failed deletion).  An error of the wait for the deletion
    that is no file-not-found fault is dropped: when the destruction
    that follows succeeds, [Remove] returns nil, and the file may still
    be in the datastore. *)
Theorem Remove_ignores_failed_delete (env : Backend) (w : World) (e : error) :
  let evs := events_of (Remove env) w in
  In (Did WaitDelete (Some e)) evs ->
  IsFileNotFound e = false ->
  In (Did WaitDestroy None) evs ->
  fst (Remove env w) = Ret None.
Proof.
  cbn zeta. destruct (Remove_events env w) as (pre & HQ & [(e' & HR & HE)|(w1 & Hp & HR & HE)]).
  - rewrite HE. intros H. exfalso. revert H.
    apply (before_removal_not_In _ _ HQ). intros [].
  - rewrite HR, HE. intros H1 H2 H3. drop_pre H1 HQ. drop_pre H3 HQ.
    destruct (Remove_afterStop_outcome env w1) as (_ & _ & _ & C & _).
    eapply C; eassumption.
Qed.

Lemma Remove_ignores_failed_delete_witness :
  let env := scripted (fun _ c => match c with
                                  | WaitDelete => Some (Fault OtherFault "datastore busy")
                                  | _ => None
                                  end)
                      (always "poweredOff") (inr []) in
  fst (Remove env dev) = Ret None.
Proof.
  intros env.
  apply (Remove_ignores_failed_delete env dev (Fault OtherFault "datastore busy")).
  - vm_compute. in_list.
  - reflexivity.
  - vm_compute. in_list.
Defined.

(** ** PreCreateCheck, when it passes *)

Lemma checkNetworks_ok (env : Backend) (networks : list string) :
  forall w w',
    checkNetworks env networks w = (Ret None, w') ->
    drv w' = drv w /\
    log w' = log w ++ map (fun n => Did (NetworkOrDefault n) None) networks.
Proof.
  induction networks as [|n rest IH]; intros w w'; cbn [checkNetworks map].
  - intros H. injection H as <-. rewrite app_nil_r. auto.
  - unfold bind, call. cbn [fst snd].
    destruct (on_call env (log w) (NetworkOrDefault n)) as [e|] eqn:E; [discriminate|].
    intros H. apply IH in H. cbn [drv log] in H. destruct H as [Hd Hl].
    split; [exact Hd|]. rewrite Hl, <- app_assoc. reflexivity.
Qed.

Lemma defaults_fixed (w w' : World) :
  defaults_networks w w' ->
  nth_error (Networks (drv w)) 0 = Some (Network (drv w)) ->
  drv w' = drv w.
Proof.
  intros (S & Hn & Hm) H0. unfold same_but_networks in S.
  assert (En : Networks (drv w') = Networks (drv w)).
  { destruct Hn as [Hn|[Hn _]]; [exact Hn|]. rewrite Hn in H0. discriminate. }
  assert (Em : Network (drv w') = Network (drv w)).
  { destruct Hm as [Hm|Hm]; [exact Hm|]. rewrite En in Hm. congruence. }
  rewrite S, En, Em. destruct (drv w). reflexivity.
Qed.

Lemma PreCreateCheck_accepts (env : Backend) (w : World) :
  let d' := drv (snd (PreCreateCheck env w)) in
  let evs := events_of (PreCreateCheck env) w in
  fst (PreCreateCheck env w) = Ret None ->
  Networks d' = (if (length (Networks (drv w)) =? 0)%nat
                 then ["VM Network"] else Networks (drv w)) /\
  nth_error (Networks d') 0 = Some (Network d') /\
  (forall n, In n (Networks d') -> In (Did (NetworkOrDefault n) None) evs) /\
  In (Did (DatastoreOrDefault (Datastore (drv w))) None) evs.
Proof.
  unfold events_of, PreCreateCheck, checkDatastoreAndRest, checkNetworksAndRest,
    checkHostAndPool, checkPool.
  unfold_monad.
  split_run.
  all: subst.
  all: cbn zeta; try (intros H; discriminate H).
  all: intros _.
  all: match goal with
       | H : checkNetworks _ _ _ = (Ret None, _) |- _ =>
           apply checkNetworks_ok in H; cbn [drv log] in H;
           let Hd := fresh "Hd" in
           let Hl := fresh "Hl" in
           destruct H as [Hd Hl]; rewrite Hl; rewrite Hd in *
       end.
  all: try match goal with
       | H : (length (Networks (drv ?w)) =? 0)%nat = true |- _ =>
           destruct (Networks (drv w)) eqn:EN; [clear H|discriminate H]
       end.
  all: cbn [Networks Network set_Network set_Networks app] in *.
  all: log_events.
  all: split; [reflexivity|]; split; [assumption|]; split.
  all: try (intros n Hn;
            apply in_map with (f := fun n => Did (NetworkOrDefault n) None) in Hn;
            repeat rewrite in_app_iff; tauto).
  all: repeat rewrite in_app_iff; cbn [In]; intuition auto.
Qed.

(** X15 (a check that passes).  When [PreCreateCheck] returns nil,
    [Networks] holds the configured networks, or "VM Network" alone if
    none was configured, and [Network] is the first of them; every one
    of them and the datastore were found by the backend in this run.
    A second check, against any backend, then leaves the driver struct
    as it is. *)
Theorem PreCreateCheck_success (env env' : Backend) (w : World) :
  let w' := snd (PreCreateCheck env w) in
  let evs := events_of (PreCreateCheck env) w in
  fst (PreCreateCheck env w) = Ret None ->
  Networks (drv w') = (if (length (Networks (drv w)) =? 0)%nat
                       then ["VM Network"] else Networks (drv w)) /\
  nth_error (Networks (drv w')) 0 = Some (Network (drv w')) /\
  (forall n, In n (Networks (drv w')) -> In (Did (NetworkOrDefault n) None) evs) /\
  In (Did (DatastoreOrDefault (Datastore (drv w))) None) evs /\
  drv (snd (PreCreateCheck env' w')) = drv w'.
Proof.
  intros w' evs H. destruct (PreCreateCheck_accepts env w H) as (H1 & H2 & H3 & H4).
  repeat apply conj; try assumption.
  apply defaults_fixed; [apply PreCreateCheck_defaults|exact H2].
Qed.

Lemma PreCreateCheck_success_witness :
  let env := scripted noFailure (always "poweredOff") (inr []) in
  let w' := snd (PreCreateCheck env dev) in
  fst (PreCreateCheck env dev) = Ret None /\
  Networks (drv w') = ["VM Network"] /\
  Network (drv w') = "VM Network" /\
  drv (snd (PreCreateCheck env w')) = drv w'.
Proof.
  intros env w'.
  assert (H : fst (PreCreateCheck env dev) = Ret None) by (vm_compute; reflexivity).
  destruct (PreCreateCheck_success env env dev H) as (H1 & H2 & _ & _ & H5).
  fold w' in H1, H2, H5. split; [exact H|]. split; [exact H1|]. split; [|exact H5].
  rewrite H1 in H2.
  apply (f_equal (fun o => match o with Some n => n | None => "" end)) in H2.
  symmetry. exact H2.
Defined.

(** ** GetURL and GetSSHUsername *)

Lemma GetURL_unfold (env : Backend) (N : net.Pkg) (w : World) :
  GetURL env N w =
  match GetIP env N w with
  | (Ret (ip, Some e), w') => (Ret ("", Some e), w')
  | (Ret (ip, None), w') =>
      (Ret (if String.eqb ip "" then ""
            else ("tcp://" ++ JoinHostPort ip "2376")%string, None), w')
  | (Panic msg, w') => (Panic msg, w')
  end.
Proof.
  unfold GetURL, bind. destruct (GetIP env N w) as [[[ip [e|]]|msg] w']; try reflexivity.
  destruct (String.eqb ip ""); reflexivity.
Qed.

Lemma GetIP_not_running (env : Backend) (N : net.Pkg) (w w1 : World) st err :
  GetState env (snd (enter mGetIP w)) = (Ret (st, err), w1) ->
  st <> state.Running ->
  GetIP env N w = (Ret ("", Some ErrHostIsNotRunning), w1).
Proof.
  intros H Hst. unfold GetIP, bind at 1. cbn [enter emit fst snd] in *.
  unfold bind at 1. rewrite H. destruct st; try reflexivity. congruence.
Qed.

(** X16 (GetURL).  [GetURL] is [GetIP] followed by formatting: it
    logs and writes what [GetIP] does; for a machine that is not
    running it returns the empty URL and [ErrHostIsNotRunning]; a URL
    that is not empty is "tcp://" followed by the address [GetIP]
    returned joined with port 2376; with an error the URL is empty. *)
Theorem GetURL_results (env : Backend) (N : net.Pkg) (w : World) :
  (forall st err w1,
      GetState env (snd (enter mGetIP w)) = (Ret (st, err), w1) ->
      st <> state.Running ->
      GetURL env N w = (Ret ("", Some ErrHostIsNotRunning), w1)) /\
  (forall url,
      fst (GetURL env N w) = Ret (url, None) -> url <> "" ->
      exists ip,
        fst (GetIP env N w) = Ret (ip, None) /\
        url = ("tcp://" ++ JoinHostPort ip "2376")%string) /\
  (forall url e, fst (GetURL env N w) = Ret (url, Some e) -> url = "") /\
  snd (GetURL env N w) = snd (GetIP env N w).
Proof.
  rewrite GetURL_unfold. repeat split.
  - intros st err w1 H Hst. rewrite (GetIP_not_running env N w w1 st err H Hst).
    reflexivity.
  - intros url. destruct (GetIP env N w) as [[[ip [e|]]|msg] w']; cbn [fst];
      try discriminate.
    intros H Hne. injection H as <-. exists ip. split; [reflexivity|].
    destruct (String.eqb ip ""); [congruence|reflexivity].
  - intros url e. destruct (GetIP env N w) as [[[ip [e'|]]|msg] w']; cbn [fst];
      try discriminate.
    intros H. injection H as <- _. reflexivity.
  - destruct (GetIP env N w) as [[[ip [e'|]]|msg] w']; reflexivity.
Qed.

Lemma GetURL_results_witness :
  let env := scripted noFailure (always "poweredOn")
                      (inr [("00:50:56:01:02:03", ["10.0.0.5"])]) in
  fst (GetURL env dotted.pkg dev) = Ret ("tcp://10.0.0.5:2376", None) /\
  exists ip,
    fst (GetIP env dotted.pkg dev) = Ret (ip, None) /\
    "tcp://10.0.0.5:2376" = ("tcp://" ++ JoinHostPort ip "2376")%string.
Proof.
  intros env.
  assert (H : fst (GetURL env dotted.pkg dev) = Ret ("tcp://10.0.0.5:2376", None))
    by (vm_compute; reflexivity).
  split; [exact H|].
  destruct (GetURL_results env dotted.pkg dev) as (_ & A & _).
  apply (A _ H). discriminate.
Defined.

(** X17 (GetSSHUsername).  [GetSSHUsername] returns a name that is
    not empty and is the one stored afterwards: the stored name if
    there is one, and then nothing is written, else "docker", which it
    stores.  A second call returns the same name. *)
Theorem GetSSHUsername_default (w : World) :
  exists u,
    GetSSHUsername w = (Ret u, snd (GetSSHUsername w)) /\
    u <> "" /\
    SSHUser (Base (drv (snd (GetSSHUsername w)))) = u /\
    (SSHUser (Base (drv w)) <> "" -> u = SSHUser (Base (drv w)) /\ snd (GetSSHUsername w) = w) /\
    (SSHUser (Base (drv w)) = "" -> u = "docker") /\
    GetSSHUsername (snd (GetSSHUsername w)) = GetSSHUsername w.
Proof.
  unfold GetSSHUsername. unfold_monad.
  destruct (String.eqb (SSHUser (Base (drv w))) "") eqn:E; cbn.
  - apply String.eqb_eq in E. eexists. split; [reflexivity|]. cbn.
    split; [discriminate|]. split; [reflexivity|]. split; [congruence|].
    split; reflexivity.
  - rewrite E. cbn. apply String.eqb_neq in E. eexists. split; [reflexivity|].
    split; [exact E|]. split; [reflexivity|]. split.
    + intros _. split; [reflexivity|]. destruct w; reflexivity.
    + split; [congruence|reflexivity].
Qed.

Lemma GetSSHUsername_default_witness :
  let w := {| drv := set_SSHUser "" (drv dev); log := [] |} in
  exists u,
    fst (GetSSHUsername w) = Ret u /\ u = "docker" /\
    SSHUser (Base (drv (snd (GetSSHUsername w)))) = "docker".
Proof.
  intros w. destruct (GetSSHUsername_default w) as (u & E & _ & S & _ & D & _).
  exists u. split; [rewrite E; reflexivity|].
  assert (U : u = "docker") by (apply D; reflexivity).
  split; [exact U|]. rewrite S. exact U.
Defined.

(** ** Configuration from the flags, options of the guest *)

Lemma TrimLeft_head (s cutset : string) :
  match TrimLeft s cutset with
  | EmptyString => True
  | String c _ => hasByte c cutset = false
  end.
Proof.
  induction s as [|c rest IH]; cbn [TrimLeft]; [exact I|].
  destruct (hasByte c cutset) eqn:E; [exact IH|exact E].
Qed.

(** The last byte of a string, if it has one. *)
Lemma TrimRight_last (s cutset : string) (x : ascii) :
  lastByte (TrimRight s cutset) = Some x -> hasByte x cutset = false.
Proof.
  induction s as [|c rest IH]; cbn [TrimRight]; [discriminate|].
  destruct (TrimRight rest cutset) as [|c' t] eqn:E.
  - destruct (hasByte c cutset) eqn:H; cbn; [discriminate|].
    intros H'. injection H' as <-. exact H.
  - exact IH.
Qed.

Lemma TrimRight_keeps_head (c : ascii) (rest cutset : string) :
  hasByte c cutset = false ->
  exists t, TrimRight (String c rest) cutset = String c t.
Proof.
  intros H. cbn [TrimRight].
  destruct (TrimRight rest cutset); [rewrite H|]; eauto.
Qed.

Lemma Trim_ends (s cutset : string) (x : ascii) :
  firstByte (Trim s cutset) = Some x \/ lastByte (Trim s cutset) = Some x ->
  hasByte x cutset = false.
Proof.
  unfold Trim. intros [H|H]; [|eapply TrimRight_last; exact H].
  pose proof (TrimLeft_head s cutset) as HL.
  destruct (TrimLeft s cutset) as [|c rest]; [discriminate H|].
  destruct (TrimRight_keeps_head c rest cutset HL) as (t & E).
  rewrite E in H. injection H as <-. exact HL.
Qed.

Lemma TrimRight_clean (s cutset : string) :
  (forall x, lastByte s = Some x -> hasByte x cutset = false) ->
  TrimRight s cutset = s.
Proof.
  induction s as [|c rest IH]; [reflexivity|]. intros H. cbn [TrimRight].
  destruct rest as [|c' t].
  - cbn. rewrite (H c eq_refl). reflexivity.
  - rewrite IH; [reflexivity|]. intros x Hx. apply H. exact Hx.
Qed.

Lemma TrimLeft_clean (s cutset : string) :
  (forall x, firstByte s = Some x -> hasByte x cutset = false) ->
  TrimLeft s cutset = s.
Proof.
  destruct s as [|c rest]; [reflexivity|]. intros H. cbn [TrimLeft].
  rewrite (H c eq_refl). reflexivity.
Qed.

Lemma Trim_clean (s cutset : string) :
  (forall x, firstByte s = Some x \/ lastByte s = Some x -> hasByte x cutset = false) ->
  Trim s cutset = s.
Proof.
  intros H. unfold Trim. rewrite TrimLeft_clean by (intros x Hx; apply H; auto).
  apply TrimRight_clean. intros x Hx. apply H. auto.
Qed.

Lemma Trim_idempotent (s cutset : string) :
  Trim (Trim s cutset) cutset = Trim s cutset.
Proof. apply Trim_clean. intros x. apply Trim_ends. Qed.

(** Only bytes of the cutset are cut, and only at the two ends. *)
Lemma TrimLeft_cut (s cutset : string) :
  exists a, s = (a ++ TrimLeft s cutset)%string /\
            forall x, hasByte x a = true -> hasByte x cutset = true.
Proof.
  induction s as [|c rest IH]; cbn [TrimLeft].
  - exists "". split; [reflexivity|discriminate].
  - destruct (hasByte c cutset) eqn:E.
    + destruct IH as (a & Ha & Hc). exists (String c a). split.
      * cbn. rewrite <- Ha. reflexivity.
      * intros x. cbn [hasByte]. intros Hx. apply orb_true_iff in Hx.
        destruct Hx as [Hx|Hx]; [|apply Hc; exact Hx].
        apply Ascii.eqb_eq in Hx. subst. exact E.
    + exists "". split; [reflexivity|discriminate].
Qed.

Lemma TrimRight_cut (s cutset : string) :
  exists b, s = (TrimRight s cutset ++ b)%string /\
            forall x, hasByte x b = true -> hasByte x cutset = true.
Proof.
  induction s as [|c rest IH]; cbn [TrimRight].
  - exists "". split; [reflexivity|discriminate].
  - destruct IH as (b & Hb & Hc).
    destruct (TrimRight rest cutset) as [|c' t] eqn:E.
    + cbn in Hb. subst b. destruct (hasByte c cutset) eqn:H.
      * exists (String c rest). split; [reflexivity|].
        intros x. cbn [hasByte]. intros Hx. apply orb_true_iff in Hx.
        destruct Hx as [Hx|Hx]; [|apply Hc; exact Hx].
        apply Ascii.eqb_eq in Hx. subst. exact H.
      * exists rest. split; [reflexivity|exact Hc].
    + exists b. split; [|exact Hc]. cbn. cbn in Hb. rewrite <- Hb. reflexivity.
Qed.

(** X18 (the folder flag).  [SetConfigFromFlags] returns nil and
    stores the folder flag without its leading and trailing slashes:
    the stored folder neither starts nor ends with a slash, the flag is
    the stored folder between two runs of slashes, and a flag without a
    slash at either end is stored as it is. *)
Theorem SetConfigFromFlags_folder
    (SetSwarm : drivers.DriverOptions -> BaseDriver -> BaseDriver)
    (Resolve : BaseDriver -> string -> string)
    (flags : drivers.DriverOptions) (w : World) :
  let d' := drv (snd (SetConfigFromFlags SetSwarm Resolve flags w)) in
  let given := drivers.String flags "vmwarevsphere-folder" in
  fst (SetConfigFromFlags SetSwarm Resolve flags w) = Ret None /\
  (forall x, firstByte (Folder d') = Some x \/ lastByte (Folder d') = Some x ->
             x <> "/"%char) /\
  (exists a b, given = (a ++ Folder d' ++ b)%string /\
               forall x, hasByte x a = true \/ hasByte x b = true -> x = "/"%char) /\
  ((forall x, firstByte given = Some x \/ lastByte given = Some x -> x <> "/"%char) ->
   Folder d' = given).
Proof.
  cbn. split; [reflexivity|]. split; [|split].
  - intros x H. apply Trim_ends in H. cbn in H.
    intros ->. discriminate H.
  - unfold Trim.
    destruct (TrimLeft_cut (drivers.String flags "vmwarevsphere-folder") "/") as (a & Ha & Hca).
    destruct (TrimRight_cut (TrimLeft (drivers.String flags "vmwarevsphere-folder") "/") "/")
      as (b & Hb & Hcb).
    exists a, b. split; [rewrite <- Hb; exact Ha|].
    intros x [H|H]; [apply Hca in H|apply Hcb in H]; cbn in H;
      rewrite orb_false_r in H; apply Ascii.eqb_eq in H; exact H.
  - intros H. apply Trim_clean. intros x Hx. cbn.
    rewrite orb_false_r. apply Ascii.eqb_neq. apply H. exact Hx.
Qed.

Lemma SetConfigFromFlags_folder_witness :
  Folder (drv (snd (SetConfigFromFlags (fun _ base => base) (fun _ name => name)
                      (flagsWithFolder "machines/dev") dev)))
  = "machines/dev".
Proof.
  destruct (SetConfigFromFlags_folder (fun _ base => base) (fun _ name => name)
              (flagsWithFolder "machines/dev") dev) as (_ & _ & _ & H).
  apply H. intros x [E|E]; vm_compute in E; injection E as <-; discriminate.
Defined.

(** X20 (declared flags).  [SetConfigFromFlags] reads the flags that
    [GetCreateFlags] declares, each as the kind of value it was declared
    with, and no other flag of its own: two sets of options that answer
    the declared flags alike (and the swarm flags, which
    [SetSwarmConfigFromFlags] reads) configure the driver alike.  And
    every declared flag is stored: two sets of options that configure
    the driver alike answer every declared flag alike, but for the
    folder, which is stored without the slashes at its ends. *)
Theorem SetConfigFromFlags_reads_declared_flags
    (SetSwarm : drivers.DriverOptions -> BaseDriver -> BaseDriver)
    (Resolve : BaseDriver -> string -> string)
    (a b : drivers.DriverOptions) (w : World) :
  ((forall f, In f GetCreateFlags -> same_answer f a b) ->
   (forall base, SetSwarm a base = SetSwarm b base) ->
   SetConfigFromFlags SetSwarm Resolve a w = SetConfigFromFlags SetSwarm Resolve b w) /\
  (drv (snd (SetConfigFromFlags SetSwarm Resolve a w))
   = drv (snd (SetConfigFromFlags SetSwarm Resolve b w)) ->
   forall f, In f GetCreateFlags -> mcnflag.Name f <> "vmwarevsphere-folder" ->
             same_answer f a b).
Proof.
  split.
  - intros H HS. unfold SetConfigFromFlags. unfold_monad.
    repeat match goal with
           | |- context [drivers.Int a ?n] =>
               rewrite (H (mcnflag.IntFlag n _ _ _) ltac:(cbn [In GetCreateFlags]; tauto))
           | |- context [drivers.String a ?n] =>
               rewrite (H (mcnflag.StringFlag n _ _ _) ltac:(cbn [In GetCreateFlags]; tauto))
           | |- context [drivers.StringSlice a ?n] =>
               rewrite (H (mcnflag.StringSliceFlag n _ _ _)
                          ltac:(cbn [In GetCreateFlags]; tauto))
           end.
    rewrite HS. reflexivity.
  - unfold SetConfigFromFlags. unfold_monad. intros E f Hin Hne.
    injection E as E0 E1 E2 E3 E4 E5 E6 E7 E8 E9 E10 E11 E12 E13 E14 E15 E16 E17.
    cbn [In GetCreateFlags] in Hin.
    repeat (destruct Hin as [<-|Hin]; [cbn [same_answer]; try assumption|]);
      try contradiction.
Qed.

Lemma SetConfigFromFlags_reads_declared_flags_witness :
  let a := flagsWithFolder "machines/dev" in
  let b := {| drivers.String := drivers.String a;
              drivers.StringSlice := drivers.StringSlice a;
              drivers.Int := drivers.Int a;
              drivers.Bool := fun _ => true |} in
  SetConfigFromFlags (fun _ base => base) (fun _ name => name) a dev
  = SetConfigFromFlags (fun _ base => base) (fun _ name => name) b dev.
Proof.
  intros a b.
  apply (proj1 (SetConfigFromFlags_reads_declared_flags
                  (fun _ base => base) (fun _ name => name) a b dev)).
  - intros f _. destruct f; reflexivity.
  - reflexivity.
Defined.

Lemma SplitN2_cases (s : string) :
  (hasByte "=" s = false /\ SplitN2 s "=" = [s]) \/
  (exists k v, hasByte "=" s = true /\ SplitN2 s "=" = [k; v] /\
               hasByte "=" k = false /\ s = (k ++ "=" ++ v)%string).
Proof.
  induction s as [|c rest IH]; [left; split; reflexivity|].
  cbn [SplitN2 hasByte]. rewrite (Ascii.eqb_sym "="%char c).
  destruct (Ascii.eqb c "=") eqn:E.
  - right. apply Ascii.eqb_eq in E. subst c.
    exists "", rest. repeat split; reflexivity.
  - destruct IH as [(H & ->)|(k & v & H & -> & Hk & ->)].
    + left. split; [exact H|reflexivity].
    + right. exists (String c k), v. cbn [orb]. repeat split.
      * exact H.
      * cbn [hasByte]. rewrite (Ascii.eqb_sym "="%char c), E. exact Hk.
Qed.

Lemma guestinfoOption_splits (param : string) :
  exists kv, guestinfoOption param = Ret kv /\ splits_as param kv.
Proof.
  unfold guestinfoOption, splits_as.
  destruct (SplitN2_cases param) as [(H & ->)|(k & v & H & -> & Hk & E)]; rewrite H.
  - exists (param, ""). cbn. auto.
  - exists (k, v). cbn. auto.
Qed.

(** X19 (guestinfo options).  The loop over [CfgParams] in [Create]
    never panics: it appends one option for each parameter, in order;
    the key is the text before the first "=" and the value the text
    after it, so that key, "=" and value give the parameter back; a
    parameter without "=" is the key of an empty value. *)
Theorem guestinfoOptions_splits (cfgParams : list string) (opts : list (string * string)) :
  exists kvs, guestinfoOptions cfgParams opts = Ret (opts ++ kvs) /\
              Forall2 splits_as cfgParams kvs.
Proof.
  revert opts. induction cfgParams as [|param rest IH]; intros opts; cbn [guestinfoOptions].
  - exists []. rewrite app_nil_r. split; [reflexivity|constructor].
  - destruct (guestinfoOption_splits param) as (kv & -> & Hkv).
    destruct (IH (opts ++ [kv])) as (kvs & -> & Hall).
    exists (kv :: kvs). rewrite <- app_assoc. split; [reflexivity|].
    constructor; assumption.
Qed.

Example guestinfoOptions_example :
  guestinfoOptions ["guestinfo.hostname=dev"; "a=b=c"; "flag"; "=x"] []
  = Ret [("guestinfo.hostname", "dev"); ("a", "b=c"); ("flag", ""); ("", "x")].
Proof. reflexivity. Qed.

Example SetConfigFromFlags_example :
  Folder (drv (snd (SetConfigFromFlags (fun _ b => b) (fun _ name => name)
                      (flagsWithFolder "/machines/dev/") dev)))
  = "machines/dev".
Proof. reflexivity. Qed.
